(** * The looker's overlay base and interaction elements

    A shallow embedding of [app/packages/looker/src/overlays/base.ts] and
    [app/packages/looker/src/elements/common.ts].

    JavaScript numbers that carry geometry (pan, scale, page and client
    coordinates) are idealised as exact rationals [Q] in the handlers;
    strict equality [===] on them is [Qeq_bool].  The arithmetic of the
    wheel handler is embedded a second time on binary64 numbers, for what
    depends on rounding.  Indices and frame numbers are integers [Z].  A
    value that may be [undefined] or [null] is an [option]; a property
    read on the filter object goes through [Object.prototype]. *)

From Stdlib Require Import ZArith QArith Qminmax Qfield Lqa Lia List String Bool.
From Stdlib Require Import Floats.
From stdpp Require Import base option list gmap strings.
Import ListNotations.

Local Open Scope string_scope.
Local Open Scope Z_scope.

(** ** Shared data: [state.ts] as the two source files use it *)

Definition Coordinates : Type := (Q * Q)%type.
Definition Dimensions : Type := (Q * Q)%type.
(** [[tlx, tly, width, height]] *)
Definition BoundingBox : Type := (Q * Q * Q * Q)%type.

(** The outcome of calling a JavaScript function: it returns a value or it
    throws. *)
Inductive Result (A : Type) : Type :=
| Returns (a : A)
| Throws (error : string).
Arguments Returns {A} & a.
Arguments Throws {A} error.

(** [RegularLabel extends BaseLabel] *)
Record RegularLabel : Type := {
  id : string;
  _cls : string;
  frame_number : option Z;
  tags : list string;
  index : option Z;
  label : option string;
  confidence : option Q
}.

Record Coloring : Type := {
  byLabel : bool;
  pool : list string;
  seed : Z
}.

Record Options : Type := {
  activePaths : option (list string);
  filter : option (gmap string (RegularLabel -> Result bool));
  coloring : Coloring;
  selectedLabels : list string;
  onlyShowHoveredLabel : bool;
  showLabel : bool;
  showConfidence : bool;
  showTooltip : bool
}.

Record Config : Type := {
  thumbnail : bool;
  dimensions : Dimensions
}.

(** [BaseState], with the two fields the elements read behind
    [@ts-ignore]: [playing] ([undefined] is falsy, so it is a [bool]) and
    [frameNumber]. *)
Record BaseState : Type := {
  rotate : Z;
  showControls : bool;
  showOptions : bool;
  hovering : bool;
  hoveringControls : bool;
  disableControls : bool;
  panning : bool;
  wheeling : bool;
  canZoom : bool;
  fullscreen : bool;
  loaded : bool;
  playing : bool;
  frameNumber : option Z;
  pan : Coordinates;
  scale : Q;
  windowBBox : BoundingBox;
  cursorCoordinates : Coordinates;
  config : Config;
  options : Options
}.

(** ** [overlays/base.ts] *)

(** [enum CONTAINS], in numerical order. *)
Inductive CONTAINS : Type := NONE | CONTENT | BORDER.

Definition CONTAINS_value (c : CONTAINS) : Z :=
  match c with NONE => 0 | CONTENT => 1 | BORDER => 2 end.

Record PointInfo : Type := {
  pi_color : string;
  pi_field : string;
  pi_label : RegularLabel;
  pi_point : option Coordinates;
  pi_target : option Z;
  pi_type : string
}.

Record SelectData : Type := {
  sd_id : string;
  sd_field : string;
  sd_frameNumber : option Z
}.

(** [Array.prototype.includes] on an array of strings. *)
Definition includes (l : list string) (x : string) : bool :=
  existsb (String.eqb x) l.

(** A JavaScript value [isShown] can return: what a predicate returns is a
    boolean; what a member of [Object.prototype] returns may be something
    else. *)
Inductive JsValue : Type :=
| JsBoolean (b : bool)
| JsUndefined
| JsString (s : string)
| JsLabel (l : RegularLabel)
| JsFilters (filters : gmap string (RegularLabel -> Result bool)).

Coercion JsBoolean : bool >-> JsValue.

(** What a predicate returned or threw, as the outcome of the caller. *)
Definition verdict (r : Result bool) : Result JsValue :=
  match r with
  | Returns b => Returns (JsBoolean b)
  | Throws error => Throws error
  end.

(** [Object.prototype] of the JavaScript runtime, which every object
    literal inherits from and which is not part of the embedded files: the
    truthy member under a name, if there is one, given as what calling it
    does with the filter object as [this] and the label as argument (a
    member that is not a function throws a [TypeError] when called). *)
Class Runtime : Type := {
  objectPrototype :
    string ->
    option (gmap string (RegularLabel -> Result bool) ->
            RegularLabel -> Result JsValue)
}.

(** [isShown(state, field, label)].  [state.options.activePaths] and
    [state.options.filter] are tested for truthiness (an array or an object,
    even an empty one, is truthy), and so is [state.options.filter[field]]:
    the property read finds an own key of the filter object first and a
    member of [Object.prototype] next, and is [undefined] when there is
    neither.  The source has no [try]: what the call does is what [isShown]
    does. *)
Definition isShown `{Runtime} (state : BaseState) (field : string)
  (lbl : RegularLabel) : Result JsValue :=
  if match activePaths (options state) with
     | Some paths => negb (includes paths field)
     | None => false
     end
  then Returns false
  else
    match filter (options state) with
    | Some filters =>
        match filters !! field with
        | Some predicate => verdict (predicate lbl)
        | None =>
            match objectPrototype field with
            | Some member => member filters lbl
            | None => Returns true
            end
        end
    | None => Returns true
    end.

(** [Object.prototype] as ECMAScript defines it (with the members of its
    Annex B that every browser has), called on a filter object whose own
    properties are the per-field predicates, with a label as argument.  A
    label is a plain object, so as a property key it is the string
    [[object Object]].  [toLocaleString] calls [this.toString()], which is
    the filter's own predicate [toString] when there is one, called with no
    argument: [withoutLabel] says what a predicate does then. *)
Definition ecmaObjectPrototype
  (withoutLabel : (RegularLabel -> Result bool) -> Result JsValue)
  (name : string)
  : option (gmap string (RegularLabel -> Result bool) ->
            RegularLabel -> Result JsValue) :=
  if String.eqb name "constructor"
  then Some (fun _ l => Returns (JsLabel l))
  else if String.eqb name "hasOwnProperty"
          || String.eqb name "propertyIsEnumerable"
  then Some (fun filters _ =>
               Returns (JsBoolean
                          match filters !! "[object Object]" with
                          | Some _ => true
                          | None => false
                          end))
  else if String.eqb name "isPrototypeOf"
  then Some (fun _ _ => Returns (JsBoolean false))
  else if String.eqb name "toString"
  then Some (fun _ _ => Returns (JsString "[object Object]"))
  else if String.eqb name "toLocaleString"
  then Some (fun filters _ =>
               match filters !! "toString" with
               | Some predicate => withoutLabel predicate
               | None => Returns (JsString "[object Object]")
               end)
  else if String.eqb name "valueOf"
  then Some (fun filters _ => Returns (JsFilters filters))
  else if String.eqb name "__proto__"
  then Some (fun _ _ =>
               Throws "TypeError: state.options.filter[field] is not a function")
  else if String.eqb name "__defineGetter__"
          || String.eqb name "__defineSetter__"
  then Some (fun _ _ => Throws "TypeError: the accessor is not a function")
  else if String.eqb name "__lookupGetter__"
          || String.eqb name "__lookupSetter__"
  then Some (fun _ _ => Returns JsUndefined)
  else None.

(** The runtime the concrete inputs below are run in: a browser, where a
    predicate called without a label reads a property of [undefined] and
    throws. *)
#[export] Instance browser : Runtime :=
  {| objectPrototype :=
       ecmaObjectPrototype
         (fun _ =>
            Throws "TypeError: cannot read properties of undefined") |}.

(** The instance fields of [CoordinateOverlay]: [field], [label] and the
    private [color], which no constructor initialises. *)
Record CoordinateOverlay : Type := {
  field : string;
  co_label : RegularLabel;
  co_color : option string
}.

(** [new CoordinateOverlay(field, label)] *)
Definition newCoordinateOverlay (f : string) (lbl : RegularLabel)
  : CoordinateOverlay :=
  {| field := f; co_label := lbl; co_color := None |}.


(** [CoordinateOverlay.isSelected(state)] *)
Definition isSelected (this : CoordinateOverlay) (state : BaseState) : bool :=
  includes (selectedLabels (options state)) (id (co_label this)).

(** [CoordinateOverlay.getSelectData(state)] *)
Definition CoordinateOverlay_getSelectData (this : CoordinateOverlay)
  (state : BaseState) : SelectData :=
  {| sd_id := id (co_label this);
     sd_field := field this;
     sd_frameNumber := frameNumber state |}.

(** Truthiness of the [color] field: [undefined] and the empty string are
    falsy. *)
Definition colorIsSet (c : option string) : bool :=
  match c with
  | Some s => negb (String.eqb s EmptyString)
  | None => false
  end.

Section GetColor.

(** [getColor] of [../color], which is not part of the embedded files. *)
Variable getColor : list string -> Z -> option string -> string.

(** The outcome of one call of the method [getColor]: the string it
    returns, the instance afterwards, and whether the call assigned
    [this.color]. *)
Record GetColorRun : Type := {
  returned : string;
  after : CoordinateOverlay;
  wrote : bool
}.

(** [CoordinateOverlay.getColor({ options })] *)
Definition CoordinateOverlay_getColor (this : CoordinateOverlay)
  (state : BaseState) : GetColorRun :=
  if colorIsSet (co_color this)
  then {| returned := default EmptyString (co_color this);
          after := this;
          wrote := false |}
  else
    let key :=
      if byLabel (coloring (options state))
      then label (co_label this)
      else Some (field this) in
    let c := getColor (pool (coloring (options state)))
                      (seed (coloring (options state))) key in
    {| returned := c;
       after := {| field := field this;
                   co_label := co_label this;
                   co_color := Some c |};
       wrote := true |}.

(** A sequence of calls on one instance, one state per call: the strings
    returned, the number of assignments to [this.color], and the
    instance at the end. *)
Fixpoint getColorCalls (this : CoordinateOverlay) (states : list BaseState)
  : list string * nat * CoordinateOverlay :=
  match states with
  | [] => ([], 0%nat, this)
  | s :: rest =>
      let r := CoordinateOverlay_getColor this s in
      let '(cs, n, final) := getColorCalls (after r) rest in
      (returned r :: cs, ((if wrote r then 1 else 0) + n)%nat, final)
  end.

End GetColor.

(** ** [elements/common.ts] *)

(** *** What the handlers consume *)

(** The [Overlay] interface, without [draw]: an overlay is the record of
    its methods. *)
Record Overlay : Type := {
  ov_field : option string;
  ov_isShown : BaseState -> Result JsValue;
  containsPoint : BaseState -> CONTAINS;
  getMouseDistance : BaseState -> Q;
  getPointInfo : BaseState -> PointInfo;
  getSelectData : BaseState -> SelectData;
  getPoints : BaseState -> list Coordinates;
  getSizeBytes : Z
}.

(** The fields of a DOM event the handlers read: [key] of a
    [KeyboardEvent]; [pageX], [pageY], [x], [y] of a [MouseEvent]; [deltaY]
    of a [WheelEvent]. *)
Record DomEvent : Type := {
  ev_key : string;
  ev_pageX : Q;
  ev_pageY : Q;
  ev_x : Q;
  ev_y : Q;
  ev_deltaY : Q
}.

(** *** Patches *)

(** One key of a partial [options] object. *)
Inductive OptionUpdate : Type :=
| Set_onlyShowHoveredLabel (b : bool)
| Set_showLabel (b : bool)
| Set_showConfidence (b : bool)
| Set_showTooltip (b : bool).

(** One key of a partial state object, with its value. *)
Inductive Update : Type :=
| Set_rotate (v : Z)
| Set_showControls (b : bool)
| Set_showOptions (b : bool)
| Set_hovering (b : bool)
| Set_hoveringControls (b : bool)
| Set_disableControls (b : bool)
| Set_panning (b : bool)
| Set_wheeling (b : bool)
| Set_canZoom (b : bool)
| Set_fullscreen (b : bool)
| Set_pan (c : Coordinates)
| Set_scale (q : Q)
| Set_cursorCoordinates (c : Coordinates)
| Set_options (o : list OptionUpdate).

(** A patch is an object literal: its keys in the order written. *)
Definition Patch : Type := list Update.

(** The value a list of keys leaves in one field: the last key that names
    the field, else the old value. *)
Definition pick {K A : Type} (get : K -> option A) (keys : list K) (old : A)
  : A :=
  fold_left (fun acc k => match get k with Some v => v | None => acc end)
            keys old.

(** Modelled from the spec: the merge of a partial [options] object, which
    is part of the update engine and is not in the embedded files; the keys
    present replace the old values and every other key is kept. *)
Definition mergeOptions (o : Options) (keys : list OptionUpdate) : Options :=
  {| activePaths := activePaths o;
     filter := filter o;
     coloring := coloring o;
     selectedLabels := selectedLabels o;
     onlyShowHoveredLabel :=
       pick (fun k => match k with Set_onlyShowHoveredLabel b => Some b
                              | _ => None end) keys (onlyShowHoveredLabel o);
     showLabel :=
       pick (fun k => match k with Set_showLabel b => Some b
                              | _ => None end) keys (showLabel o);
     showConfidence :=
       pick (fun k => match k with Set_showConfidence b => Some b
                              | _ => None end) keys (showConfidence o);
     showTooltip :=
       pick (fun k => match k with Set_showTooltip b => Some b
                              | _ => None end) keys (showTooltip o) |}.

(** Modelled from the spec: the merge of a patch into the state snapshot
    (section 4.3, "accepts either a full or partial state patch ... merges
    them into the state snapshot"); the engine that owns it is not in the
    embedded files.  A key of the patch replaces the field; a field the
    patch does not name is kept; the empty patch keeps the state. *)
Definition mergeUpdates (s : BaseState) (patch : Patch) : BaseState :=
  {| rotate :=
       pick (fun k => match k with Set_rotate v => Some v | _ => None end)
            patch (rotate s);
     showControls :=
       pick (fun k => match k with Set_showControls v => Some v
                              | _ => None end) patch (showControls s);
     showOptions :=
       pick (fun k => match k with Set_showOptions v => Some v
                              | _ => None end) patch (showOptions s);
     hovering :=
       pick (fun k => match k with Set_hovering v => Some v | _ => None end)
            patch (hovering s);
     hoveringControls :=
       pick (fun k => match k with Set_hoveringControls v => Some v
                              | _ => None end) patch (hoveringControls s);
     disableControls :=
       pick (fun k => match k with Set_disableControls v => Some v
                              | _ => None end) patch (disableControls s);
     panning :=
       pick (fun k => match k with Set_panning v => Some v | _ => None end)
            patch (panning s);
     wheeling :=
       pick (fun k => match k with Set_wheeling v => Some v | _ => None end)
            patch (wheeling s);
     canZoom :=
       pick (fun k => match k with Set_canZoom v => Some v | _ => None end)
            patch (canZoom s);
     fullscreen :=
       pick (fun k => match k with Set_fullscreen v => Some v | _ => None end)
            patch (fullscreen s);
     loaded := loaded s;
     playing := playing s;
     frameNumber := frameNumber s;
     pan :=
       pick (fun k => match k with Set_pan v => Some v | _ => None end)
            patch (pan s);
     scale :=
       pick (fun k => match k with Set_scale v => Some v | _ => None end)
            patch (scale s);
     windowBBox := windowBBox s;
     cursorCoordinates :=
       pick (fun k => match k with Set_cursorCoordinates v => Some v
                              | _ => None end) patch (cursorCoordinates s);
     config := config s;
     options :=
       fold_left (fun acc k => match k with
                               | Set_options keys => mergeOptions acc keys
                               | _ => acc
                               end) patch (options s) |}.

(** *** What the handlers produce *)

(** The payload of a [tooltip] event that is not [null]: the overlay's
    [PointInfo], the [frameNumber] assigned to it, and [coordinates]. *)
Record TooltipDetail : Type := {
  td_info : PointInfo;
  td_frameNumber : option Z;
  td_coordinates : Coordinates
}.

(** The second argument of [dispatchEvent]. *)
Inductive Detail : Type :=
| NoDetail
| Null
| SelectDetail (d : SelectData)
| TooltipInfo (d : TooltipDetail)
| OptionsDetail (o : list OptionUpdate).

(** What a handler does to the outside, in the order it does it. *)
Inductive Effect : Type :=
| dispatchEvent (name : string) (detail : Detail)
| preventDefault
| stopPropagation.

(** The two delayed callbacks of [LookerElement]. *)
Inductive TimerTask : Type :=
| HideControlsTask
| WheelSettleTask.

(** The private fields of [LookerElement].  A timer handle is a positive
    integer, so a handle that is set is truthy. *)
Record LookerElement : Type := {
  hideControlsTimeout : option positive;
  start : Coordinates;
  wheelTimeout : option positive
}.

(** The viewer as the handlers see it: the state snapshot, the
    [LookerElement] instance, and the host's pending timers with the next
    handle [setTimeout] gives out.  The other elements' private fields are
    written by their [renderSelf] only and are left out. *)
Record World : Type := {
  state : BaseState;
  looker : LookerElement;
  timers : gmap positive TimerTask;
  nextTimer : positive
}.

(** *** Handlers as computations *)

(** A computation over the world that returns a value and leaves a log of
    effects. *)
Definition Handler (A : Type) : Type := World -> A * World * list Effect.

Definition ret {A : Type} (a : A) : Handler A := fun w => (a, w, []).

Definition bind {A B : Type} (m : Handler A) (k : A -> Handler B)
  : Handler B :=
  fun w =>
    let '(a, w1, fx1) := m w in
    let '(b, w2, fx2) := k a w1 in
    (b, w2, (fx1 ++ fx2)%list).

Declare Scope handler_scope.
Delimit Scope handler_scope with handler.
Notation "x <- m ;; k" := (bind m (fun x => k))
  (at level 100, m at next level, k at level 200, right associativity)
  : handler_scope.
Notation "m ;; k" := (bind m (fun _ => k))
  (at level 100, k at level 200, right associativity) : handler_scope.
Local Open Scope handler_scope.

(** The world and the log a computation ends with. *)
Definition exec (m : Handler unit) (w : World) : World * list Effect :=
  let '(_, w', fx) := m w in (w', fx).

Definition emit (e : Effect) : Handler unit := fun w => (tt, w, [e]).

Definition withLooker (f : LookerElement -> LookerElement) : Handler unit :=
  fun w =>
    (tt,
     {| state := state w;
        looker := f (looker w);
        timers := timers w;
        nextTimer := nextTimer w |},
     []).

(** [this.start], [this.hideControlsTimeout], [this.wheelTimeout] read. *)
Definition this : Handler LookerElement := fun w => (looker w, w, []).

(** [this.start = c] *)
Definition setStart (c : Coordinates) : Handler unit :=
  withLooker (fun l =>
    {| hideControlsTimeout := hideControlsTimeout l;
       start := c;
       wheelTimeout := wheelTimeout l |}).

(** [this.hideControlsTimeout = h] *)
Definition setHideControlsTimeout (h : option positive) : Handler unit :=
  withLooker (fun l =>
    {| hideControlsTimeout := h;
       start := start l;
       wheelTimeout := wheelTimeout l |}).

(** [this.wheelTimeout = h] *)
Definition setWheelTimeout (h : option positive) : Handler unit :=
  withLooker (fun l =>
    {| hideControlsTimeout := hideControlsTimeout l;
       start := start l;
       wheelTimeout := h |}).

(** [setTimeout(task, delay)]: the task is pending under a fresh handle. *)
Definition setTimeout (task : TimerTask) : Handler positive :=
  fun w =>
    (nextTimer w,
     {| state := state w;
        looker := looker w;
        timers := <[nextTimer w := task]> (timers w);
        nextTimer := Pos.succ (nextTimer w) |},
     []).

(** [clearTimeout(h)] *)
Definition clearTimeout (h : positive) : Handler unit :=
  fun w =>
    (tt,
     {| state := state w;
        looker := looker w;
        timers := base.delete h (timers w);
        nextTimer := nextTimer w |},
     []).

(** The optional second argument of [update]. *)
Definition PostUpdate : Type := BaseState -> list Overlay -> list Effect.

(** Modelled from the spec: [update] of the update engine (section 4.3),
    which is not in the embedded files.  The updater runs on the current
    state (an object literal is the constant updater), its patch is merged
    once, and the callback, when there is one, runs after the commit on the
    new state and the current overlay list; an empty patch is committed
    like any other. *)
Definition update (overlays : list Overlay)
  (updater : BaseState -> Handler Patch) (postUpdate : option PostUpdate)
  : Handler unit :=
  fun w =>
    let '(patch, w1, fx) := updater (state w) w in
    let s' := mergeUpdates (state w1) patch in
    (tt,
     {| state := s';
        looker := looker w1;
        timers := timers w1;
        nextTimer := nextTimer w1 |},
     (fx ++ match postUpdate with
            | Some callback => callback s' overlays
            | None => []
            end)%list).

(** [dispatchTooltipEvent(dispatchEvent)]: the callback it returns, as the
    events that callback dispatches.  [overlays.length &&
    overlays[0].containsPoint(state)] is truthy when the list is not empty
    and the first overlay's containment is not [NONE = 0];
    [state.frameNumber] is truthy when it is set and not [0]. *)
Definition dispatchTooltipEvent : PostUpdate :=
  fun state overlays =>
    if playing state && thumbnail (config state) then []
    else if negb (showTooltip (options state)) then []
    else
      let detail :=
        match overlays with
        | o :: _ =>
            match containsPoint o state with
            | NONE => None
            | _ => Some (getPointInfo o state)
            end
        | [] => None
        end in
      [dispatchEvent "tooltip"
         match detail with
         | Some info =>
             TooltipInfo
               {| td_info := info;
                  td_frameNumber :=
                    match frameNumber state with
                    | Some n => if (n =? 0)%Z then None else Some n
                    | None => None
                    end;
                  td_coordinates := cursorCoordinates state |}
         | None => Null
         end].

(** *** [LookerElement] *)

(** [LookerElement.getPan([x, y])] *)
Definition getPan (l : LookerElement) (c : Coordinates) : Coordinates :=
  let '(x, y) := c in
  let '(sx, sy) := start l in
  ((x - sx)%Q, (y - sy)%Q).

Definition LookerElement_keydown (overlays : list Overlay) (event : DomEvent)
  : Handler unit :=
  if String.eqb (ev_key event) "ArrowDown" then
    update overlays (fun s => ret [Set_rotate (rotate s + 1)])
           (Some dispatchTooltipEvent)
  else if String.eqb (ev_key event) "ArrowUp" then
    update overlays (fun s => ret [Set_rotate (Z.max (rotate s - 1) 0)])
           (Some dispatchTooltipEvent)
  else if String.eqb (ev_key event) "Escape" then
    update overlays
           (fun _ => ret [Set_showControls false; Set_showOptions false])
           None
  else if String.eqb (ev_key event) "s" then
    update overlays
           (fun s => ret [Set_showOptions (showOptions s);
                          Set_showControls (showControls s)])
           None
  else ret tt.

Definition LookerElement_mouseenter (overlays : list Overlay)
  (event : DomEvent) : Handler unit :=
  emit (dispatchEvent "mouseenter" NoDetail) ;;
  update overlays
         (fun s =>
            if thumbnail (config s) then ret [Set_hovering true]
            else ret [Set_hovering true; Set_showControls true])
         None.

Definition LookerElement_mouseleave (overlays : list Overlay)
  (event : DomEvent) : Handler unit :=
  emit (dispatchEvent "mouseleave" NoDetail) ;;
  update overlays
         (fun _ => ret [Set_hovering false; Set_disableControls false;
                        Set_panning false])
         None.

Definition LookerElement_mousedown (overlays : list Overlay)
  (event : DomEvent) : Handler unit :=
  update overlays
         (fun s =>
            let '(x, y) := pan s in
            if thumbnail (config s) then ret []
            else
              emit preventDefault ;;
              setStart ((ev_pageX event - x)%Q, (ev_pageY event - y)%Q) ;;
              ret [Set_panning true; Set_canZoom false])
         None.

Definition LookerElement_mouseup (overlays : list Overlay) (event : DomEvent)
  : Handler unit :=
  update overlays
         (fun s =>
            if thumbnail (config s) || negb (panning s) then ret []
            else
              emit preventDefault ;;
              l <- this ;;
              ret [Set_panning false;
                   Set_pan (getPan l (ev_pageX event, ev_pageY event))])
         None.

(** The callback [mousemove] schedules, 2500ms later. *)
Definition hideControlsCallback (overlays : list Overlay) : Handler unit :=
  update overlays
         (fun s =>
            setHideControlsTimeout None ;;
            if negb (showOptions s) then ret [Set_showControls false]
            else ret [])
         None.

Definition LookerElement_mousemove (overlays : list Overlay)
  (event : DomEvent) : Handler unit :=
  l <- this ;;
  match hideControlsTimeout l with
  | Some h => clearTimeout h
  | None => ret tt
  end ;;
  h <- setTimeout HideControlsTask ;;
  setHideControlsTimeout (Some h) ;;
  update overlays
         (fun s =>
            if thumbnail (config s) || negb (panning s) then
              ret (if (rotate s =? 0)%Z then [] else [Set_rotate 0])
            else
              l' <- this ;;
              ret [Set_rotate 0;
                   Set_pan (getPan l' (ev_pageX event, ev_pageY event))])
         None.

Definition LookerElement_dblclick (overlays : list Overlay)
  (event : DomEvent) : Handler unit :=
  update overlays
         (fun s =>
            ret (if thumbnail (config s) then []
                 else [Set_scale 1%Q; Set_pan (0%Q, 0%Q); Set_canZoom true]))
         None.

(** The callback [wheel] schedules, 200ms later. *)
Definition wheelSettleCallback (overlays : list Overlay) : Handler unit :=
  setWheelTimeout None ;;
  update overlays (fun _ => ret [Set_wheeling false]) None.

Section ClampScale.

(** [clampScale] of [../util], which is not part of the embedded files. *)
Variable clampScale : Dimensions -> Dimensions -> Q -> Q.

Definition LookerElement_wheel (overlays : list Overlay) (event : DomEvent)
  : Handler unit :=
  update overlays
         (fun s =>
            let '(px, py) := pan s in
            let '(tlx, tly, width, height) := windowBBox s in
            if thumbnail (config s) then ret []
            else
              emit preventDefault ;;
              let x := (ev_x event - tlx)%Q in
              let y := (ev_y event - tly)%Q in
              let xs := ((x - px) / scale s)%Q in
              let ys := ((y - py) / scale s)%Q in
              let newScale :=
                clampScale (width, height) (dimensions (config s))
                  (if negb (Qle_bool 0 (ev_deltaY event))
                   then (scale s * 1.15)%Q
                   else (scale s / 1.15)%Q) in
              if Qeq_bool (scale s) newScale then ret []
              else
                l <- this ;;
                match wheelTimeout l with
                | Some h => clearTimeout h
                | None => ret tt
                end ;;
                h <- setTimeout WheelSettleTask ;;
                setWheelTimeout (Some h) ;;
                ret [Set_pan ((x - xs * newScale)%Q, (y - ys * newScale)%Q);
                     Set_scale newScale;
                     Set_canZoom false;
                     Set_cursorCoordinates (ev_pageX event, ev_pageY event);
                     Set_wheeling true])
         (Some dispatchTooltipEvent).

(** The names of the DOM events some element listens to. *)
Inductive EventName : Type :=
| keydown | mouseenter | mouseleave | mousedown | mouseup | mousemove
| dblclick | wheel | click.

(** [Events<State>]: the handler an element registers under a name, if
    any. *)
Definition Events : Type :=
  EventName -> option (list Overlay -> DomEvent -> Handler unit).

Definition LookerElement_getEvents : Events :=
  fun name =>
    match name with
    | keydown => Some LookerElement_keydown
    | mouseenter => Some LookerElement_mouseenter
    | mouseleave => Some LookerElement_mouseleave
    | mousedown => Some LookerElement_mousedown
    | mouseup => Some LookerElement_mouseup
    | mousemove => Some LookerElement_mousemove
    | dblclick => Some LookerElement_dblclick
    | wheel => Some LookerElement_wheel
    | click => None
    end.

(** *** [CanvasElement] *)

Definition CanvasElement_click (overlays : list Overlay) (event : DomEvent)
  : Handler unit :=
  update overlays (fun _ => ret [Set_showOptions false])
         (Some (fun state overlays =>
                  match overlays with
                  | o :: _ =>
                      if negb (thumbnail (config state))
                      then [dispatchEvent "select"
                              (SelectDetail (getSelectData o state))]
                      else []
                  | [] => []
                  end)).

Definition CanvasElement_mouseleave (overlays : list Overlay)
  (event : DomEvent) : Handler unit :=
  emit (dispatchEvent "tooltip" Null).

Definition CanvasElement_mousemove (overlays : list Overlay)
  (event : DomEvent) : Handler unit :=
  update overlays
         (fun s =>
            ret (if thumbnail (config s) then []
                 else [Set_cursorCoordinates
                         (ev_pageX event, ev_pageY event)]))
         (Some dispatchTooltipEvent).

Definition CanvasElement_getEvents : Events :=
  fun name =>
    match name with
    | click => Some CanvasElement_click
    | mouseleave => Some CanvasElement_mouseleave
    | mousemove => Some CanvasElement_mousemove
    | _ => None
    end.

(** *** [ControlsElement] *)

Definition ControlsElement_click (overlays : list Overlay) (event : DomEvent)
  : Handler unit :=
  emit stopPropagation ;;
  update overlays
         (fun _ => ret [Set_showControls false; Set_disableControls true;
                        Set_showOptions false])
         None.

(** [mouseenter] and [mouseleave] of [ControlsElement] and of
    [OptionsPanelElement]. *)
Definition setHoveringControls (b : bool) (overlays : list Overlay)
  (event : DomEvent) : Handler unit :=
  update overlays (fun _ => ret [Set_hoveringControls b]) None.

(** [wheel], [dblclick], [mousedown] and [mouseup] of [ControlsElement]. *)
Definition preventAndStop (overlays : list Overlay) (event : DomEvent)
  : Handler unit :=
  emit preventDefault ;; emit stopPropagation.

Definition ControlsElement_getEvents : Events :=
  fun name =>
    match name with
    | click => Some ControlsElement_click
    | mouseenter => Some (setHoveringControls true)
    | mouseleave => Some (setHoveringControls false)
    | wheel | dblclick | mousedown | mouseup => Some preventAndStop
    | _ => None
    end.

(** *** The buttons *)

Definition FullscreenButtonElement_click (overlays : list Overlay)
  (event : DomEvent) : Handler unit :=
  emit stopPropagation ;;
  update overlays (fun s => ret [Set_fullscreen (negb (fullscreen s))]) None.

(** [click] of [PlusElement] and of [MinusElement]. *)
Definition stopOnly (overlays : list Overlay) (event : DomEvent)
  : Handler unit :=
  emit stopPropagation.

Definition OptionsButtonElement_click (overlays : list Overlay)
  (event : DomEvent) : Handler unit :=
  emit stopPropagation ;;
  update overlays (fun s => ret [Set_showOptions (negb (showOptions s))])
         None.

(** The one listener of a button: [click]. *)
Definition onClick (h : list Overlay -> DomEvent -> Handler unit) : Events :=
  fun name => match name with click => Some h | _ => None end.

(** *** [OptionsPanelElement] and its rows *)

(** [click] and [dblclick] of [OptionsPanelElement]. *)
Definition stopAndPrevent (overlays : list Overlay) (event : DomEvent)
  : Handler unit :=
  emit stopPropagation ;; emit preventDefault.

Definition OptionsPanelElement_getEvents : Events :=
  fun name =>
    match name with
    | click | dblclick => Some stopAndPrevent
    | mouseenter => Some (setHoveringControls true)
    | mouseleave => Some (setHoveringControls false)
    | _ => None
    end.

Definition OnlyShowHoveredOnLabelOptionElement_click
  (overlays : list Overlay) (event : DomEvent) : Handler unit :=
  emit stopPropagation ;;
  emit preventDefault ;;
  update overlays
         (fun s =>
            ret [Set_options
                   [Set_onlyShowHoveredLabel
                      (negb (onlyShowHoveredLabel (options s)))]])
         None.

(** [click] of the three rows that also dispatch [options]: the key they
    toggle is built by [key] from the current options. *)
Definition toggleOption (key : Options -> OptionUpdate)
  (overlays : list Overlay) (event : DomEvent) : Handler unit :=
  emit stopPropagation ;;
  emit preventDefault ;;
  update overlays
         (fun s =>
            emit (dispatchEvent "options" (OptionsDetail [key (options s)])) ;;
            ret [Set_options [key (options s)]])
         None.

Definition ShowLabelOptionElement_click :=
  toggleOption (fun o => Set_showLabel (negb (showLabel o))).

Definition ShowConfidenceOptionElement_click :=
  toggleOption (fun o => Set_showConfidence (negb (showConfidence o))).

Definition ShowTooltipOptionElement_click :=
  toggleOption (fun o => Set_showTooltip (negb (showTooltip o))).

(** *** The viewer's inputs *)

(** The element classes of [common.ts]. *)
Inductive ElementClass : Type :=
| TheLookerElement
| TheCanvasElement
| TheControlsElement
| TheFullscreenButtonElement
| ThePlusElement
| TheMinusElement
| TheOptionsButtonElement
| TheOptionsPanelElement
| TheOnlyShowHoveredOnLabelOptionElement
| TheShowLabelOptionElement
| TheShowConfidenceOptionElement
| TheShowTooltipOptionElement.

Definition getEvents (c : ElementClass) : Events :=
  match c with
  | TheLookerElement => LookerElement_getEvents
  | TheCanvasElement => CanvasElement_getEvents
  | TheControlsElement => ControlsElement_getEvents
  | TheFullscreenButtonElement => onClick FullscreenButtonElement_click
  | ThePlusElement => onClick stopOnly
  | TheMinusElement => onClick stopOnly
  | TheOptionsButtonElement => onClick OptionsButtonElement_click
  | TheOptionsPanelElement => OptionsPanelElement_getEvents
  | TheOnlyShowHoveredOnLabelOptionElement =>
      onClick OnlyShowHoveredOnLabelOptionElement_click
  | TheShowLabelOptionElement => onClick ShowLabelOptionElement_click
  | TheShowConfidenceOptionElement =>
      onClick ShowConfidenceOptionElement_click
  | TheShowTooltipOptionElement => onClick ShowTooltipOptionElement_click
  end.

(** What the host delivers: a DOM event to a listener of an element, or
    the expiry of a timer. *)
Inductive Input : Type :=
| Dom (target : ElementClass) (name : EventName) (event : DomEvent)
| Timer (h : positive).

(** A pending timer expires: it leaves the host's table and its callback
    runs.  A handle that is not pending does nothing. *)
Definition fireTimer (overlays : list Overlay) (h : positive)
  : Handler unit :=
  fun w =>
    match timers w !! h with
    | Some task =>
        (clearTimeout h ;;
         match task with
         | HideControlsTask => hideControlsCallback overlays
         | WheelSettleTask => wheelSettleCallback overlays
         end) w
    | None => ret tt w
    end.

(** One input handled, with the overlay list current at that time. *)
Definition step (overlays : list Overlay) (i : Input) (w : World)
  : World * list Effect :=
  match i with
  | Dom target name event =>
      match getEvents target name with
      | Some handler => exec (handler overlays event) w
      | None => (w, [])
      end
  | Timer h => exec (fireTimer overlays h) w
  end.

(** A sequence of inputs handled in order: the world at the end and every
    effect, oldest first. *)
Fixpoint run (inputs : list (list Overlay * Input)) (w : World)
  : World * list Effect :=
  match inputs with
  | [] => (w, [])
  | (overlays, i) :: rest =>
      let '(w1, fx1) := step overlays i w in
      let '(w2, fx2) := run rest w1 in
      (w2, (fx1 ++ fx2)%list)
  end.

End ClampScale.

(** ** What the statements below speak of *)




(** The candidate scale of a wheel event and the scale [clampScale] makes
    of it. *)
Definition requestedScale (s : BaseState) (event : DomEvent) : Q :=
  if negb (Qle_bool 0 (ev_deltaY event))
  then (scale s * 1.15)%Q
  else (scale s / 1.15)%Q.

Definition clampedScale (clampScale : Dimensions -> Dimensions -> Q -> Q)
  (s : BaseState) (event : DomEvent) : Q :=
  let '(_, _, width, height) := windowBBox s in
  clampScale (width, height) (dimensions (config s)) (requestedScale s event).

(** An effect is a [tooltip] event. *)
Definition isTooltip (e : Effect) : bool :=
  match e with
  | dispatchEvent name _ => String.eqb name "tooltip"
  | _ => false
  end.

(** The field is excluded by [activePaths]: the list is there and the
    field is not in it. *)
Definition excluded (s : BaseState) (f : string) : Prop :=
  exists paths, activePaths (options s) = Some paths /\ f ∉ paths.

(** What the property read [options.filter[field]] finds, when the filter
    object is there: the own predicate under the field's name, else the
    member of [Object.prototype] under that name, each as what calling it
    on the label gives [isShown]. *)
Definition filterProperty `{Runtime} (s : BaseState) (f : string)
  : option (RegularLabel -> Result JsValue) :=
  match filter (options s) with
  | Some filters =>
      match filters !! f with
      | Some predicate => Some (fun l => verdict (predicate l))
      | None =>
          match objectPrototype f with
          | Some member => Some (member filters)
          | None => None
          end
      end
  | None => None
  end.

(** The per-field filter [options.filter[field]], when both are there:
    the filter object's own predicate under the field's name. *)
Definition fieldFilter (s : BaseState) (f : string)
  : option (RegularLabel -> Result bool) :=
  filter (options s) ≫= (fun filters => filters !! f).

(** The canvas's [mouseleave] listener is the target of the input. *)
Definition isCanvasMouseleave (i : Input) : bool :=
  match i with
  | Dom TheCanvasElement mouseleave _ => true
  | _ => false
  end.

(** The inputs that are an [ArrowUp] or [ArrowDown] key on the looker. *)
Definition isArrowKey (i : Input) : bool :=
  match i with
  | Dom TheLookerElement keydown event =>
      String.eqb (ev_key event) "ArrowUp"
      || String.eqb (ev_key event) "ArrowDown"
  | _ => false
  end.

(** [options.showTooltip] is false in the state every input of the
    sequence commits. *)
Fixpoint tooltipOffThroughout (clampScale : Dimensions -> Dimensions -> Q -> Q)
  (inputs : list (list Overlay * Input)) (w : World) : bool :=
  match inputs with
  | [] => true
  | (overlays, i) :: rest =>
      let w1 := fst (step clampScale overlays i w) in
      negb (showTooltip (options (state w1)))
      && tooltipOffThroughout clampScale rest w1
  end.

(** A drag on the looker: the pointer goes down at [down] and then moves
    through [moves], each with the overlay list of its time. *)
Definition drag (down : list Overlay * DomEvent)
  (moves : list (list Overlay * DomEvent)) : list (list Overlay * Input) :=
  (fst down, Dom TheLookerElement mousedown (snd down))
  :: map (fun m => (fst m, Dom TheLookerElement mousemove (snd m))) moves.

(** The pointer is down outside thumbnail mode with the drag anchored at
    [anchor]. *)
Definition dragging (anchor : Coordinates) (w : World) : Prop :=
  thumbnail (config (state w)) = false /\
  panning (state w) = true /\
  start (looker w) = anchor.

(** The frame number the tooltip payload carries: the state's, when it is
    set and not zero. *)
Definition tooltipFrameNumber (s : BaseState) : option Z :=
  match frameNumber s with
  | Some n => if (n =? 0)%Z then None else Some n
  | None => None
  end.

(** ** Concrete inputs *)

Definition aLabel : RegularLabel :=
  {| id := "5f1a";
     _cls := "Detection";
     frame_number := None;
     tags := [];
     index := None;
     label := Some "cat";
     confidence := Some (9 # 10) |}.

Definition someOptions : Options :=
  {| activePaths := Some ["ground_truth"; "predictions"];
     filter := None;
     coloring := {| byLabel := false; pool := ["#ee0000"; "#00ee00"];
                    seed := 0 |};
     selectedLabels := [];
     onlyShowHoveredLabel := false;
     showLabel := true;
     showConfidence := true;
     showTooltip := true |}.

(** An image viewer that is not a thumbnail: an 800 by 600 window at the
    page origin, a 1600 by 1200 image, no pan, scale 1. *)
Definition aState : BaseState :=
  {| rotate := 0;
     showControls := false;
     showOptions := false;
     hovering := true;
     hoveringControls := false;
     disableControls := false;
     panning := false;
     wheeling := false;
     canZoom := true;
     fullscreen := false;
     loaded := true;
     playing := false;
     frameNumber := None;
     pan := (0%Q, 0%Q);
     scale := 1%Q;
     windowBBox := (0%Q, 0%Q, 800%Q, 600%Q);
     cursorCoordinates := (0%Q, 0%Q);
     config := {| thumbnail := false; dimensions := (1600%Q, 1200%Q) |};
     options := someOptions |}.

Definition aWorld : World :=
  {| state := aState;
     looker := {| hideControlsTimeout := None;
                  start := (0%Q, 0%Q);
                  wheelTimeout := None |};
     timers := ∅;
     nextTimer := 1%positive |}.

(** A mouse event at page position [(px, py)], which is its client
    position too (the page is not scrolled), with wheel delta [dy]. *)
Definition mouseAt (px py dy : Q) : DomEvent :=
  {| ev_key := EmptyString;
     ev_pageX := px; ev_pageY := py;
     ev_x := px; ev_y := py;
     ev_deltaY := dy |}.

Definition keyPress (k : string) : DomEvent :=
  {| ev_key := k;
     ev_pageX := 0%Q; ev_pageY := 0%Q;
     ev_x := 0%Q; ev_y := 0%Q;
     ev_deltaY := 0%Q |}.

(** A [clampScale] to run the wheel handler with: the candidate clamped to
    the interval from 1 to 10. *)
Definition clampOneToTen (_ _ : Dimensions) (candidate : Q) : Q :=
  Qmax 1 (Qmin candidate 10).

(** An overlay whose containment at the cursor is [c]. *)
Definition anOverlay (c : CONTAINS) : Overlay :=
  {| ov_field := Some "ground_truth";
     ov_isShown := fun s => isShown s "ground_truth" aLabel;
     containsPoint := fun _ => c;
     getMouseDistance := fun _ => 0%Q;
     getPointInfo := fun _ =>
       {| pi_color := "#ee0000";
          pi_field := "ground_truth";
          pi_label := aLabel;
          pi_point := None;
          pi_target := None;
          pi_type := "Detection" |};
     getSelectData := fun s =>
       {| sd_id := "5f1a"; sd_field := "ground_truth";
          sd_frameNumber := frameNumber s |};
     getPoints := fun _ => [];
     getSizeBytes := 1 |}.

(** [state] with its options replaced. *)
Definition withOptions (s : BaseState) (o : Options) : BaseState :=
  {| rotate := rotate s; showControls := showControls s;
     showOptions := showOptions s; hovering := hovering s;
     hoveringControls := hoveringControls s;
     disableControls := disableControls s; panning := panning s;
     wheeling := wheeling s; canZoom := canZoom s;
     fullscreen := fullscreen s; loaded := loaded s; playing := playing s;
     frameNumber := frameNumber s; pan := pan s; scale := scale s;
     windowBBox := windowBBox s; cursorCoordinates := cursorCoordinates s;
     config := config s; options := o |}.

(** [state] at frame [n] of a video. *)
Definition atFrame (n : option Z) (s : BaseState) : BaseState :=
  {| rotate := rotate s; showControls := showControls s;
     showOptions := showOptions s; hovering := hovering s;
     hoveringControls := hoveringControls s;
     disableControls := disableControls s; panning := panning s;
     wheeling := wheeling s; canZoom := canZoom s;
     fullscreen := fullscreen s; loaded := loaded s; playing := playing s;
     frameNumber := n; pan := pan s; scale := scale s;
     windowBBox := windowBBox s; cursorCoordinates := cursorCoordinates s;
     config := config s; options := options s |}.

(** A filter predicate that throws on a label without a confidence and
    otherwise keeps the confident labels. *)
Definition confidentOnly (l : RegularLabel) : Result bool :=
  match confidence l with
  | Some c => Returns (Qle_bool (1 # 2) c)
  | None => Throws "TypeError: confidence is undefined"
  end.

Definition filteredOptions : Options :=
  {| activePaths := Some ["ground_truth"; "predictions"];
     filter := Some {[ "ground_truth" := confidentOnly ]};
     coloring := coloring someOptions;
     selectedLabels := [];
     onlyShowHoveredLabel := false;
     showLabel := true;
     showConfidence := true;
     showTooltip := true |}.

(** The same filter with [activePaths] undefined: no field is excluded. *)
Definition openOptions : Options :=
  {| activePaths := None;
     filter := Some {[ "ground_truth" := confidentOnly ]};
     coloring := coloring someOptions;
     selectedLabels := [];
     onlyShowHoveredLabel := false;
     showLabel := true;
     showConfidence := true;
     showTooltip := true |}.

(** A label whose [confidence] is missing. *)
Definition bareLabel : RegularLabel :=
  {| id := "77b0";
     _cls := "Detection";
     frame_number := None;
     tags := [];
     index := None;
     label := None;
     confidence := None |}.

(** A stand-in for [getColor]: the first colour of the pool, and the empty
    string when the pool is empty. *)
Definition poolHead (pool : list string) (_ : Z) (_ : option string)
  : string :=
  default EmptyString (head pool).

(** A state whose coloring options are [c]. *)
Definition colouredBy (c : Coloring) : BaseState :=
  withOptions aState
    {| activePaths := None; filter := None; coloring := c;
       selectedLabels := []; onlyShowHoveredLabel := false;
       showLabel := true; showConfidence := true; showTooltip := true |}.

(** ** Rendering: [createHTMLElement] and [renderSelf] *)

(** What [renderSelf] does to the DOM, in the order it does it. *)
Inductive DomWrite : Type :=
| SetStyle (property value : string)
| SetWidth (v : Q)
| SetHeight (v : Q)
| SetSrc (v : string)
| SetTitle (v : string)
| ClassListAdd (token : string)
| ClassListRemove (token : string)
| Focus.

(** Renders of one element, one state after the other: the element at the
    end and every write, oldest first. *)
Fixpoint renders {E : Type} (renderSelf : E -> BaseState -> E * list DomWrite)
  (element : E) (states : list BaseState) : E * list DomWrite :=
  match states with
  | [] => (element, [])
  | s :: rest =>
      let '(e1, w1) := renderSelf element s in
      let '(e2, w2) := renders renderSelf e1 rest in
      (e2, (w1 ++ w2)%list)
  end.

(** *** [LookerElement] *)

(** The looker's [div]: its class list, its tab index, and whether it is
    [document.activeElement]. *)
Record LookerDiv : Type := {
  lk_classList : gset string;
  lk_tabIndex : Z;
  lk_isActive : bool
}.

Definition LookerElement_createHTMLElement : LookerDiv :=
  {| lk_classList := {[ "looker"; "loading" ]};
     lk_tabIndex := -1;
     lk_isActive := false |}.

Definition LookerElement_renderSelf (element : LookerDiv) (s : BaseState)
  : LookerDiv * list DomWrite :=
  let '(e1, w1) :=
    if loaded s && bool_decide ("loading" ∈ lk_classList element)
    then ({| lk_classList := lk_classList element ∖ {[ "loading" ]};
             lk_tabIndex := lk_tabIndex element;
             lk_isActive := lk_isActive element |},
          [ClassListRemove "loading"])
    else (element, []) in
  if negb (thumbnail (config s)) && hovering s && negb (lk_isActive e1)
  then ({| lk_classList := lk_classList e1;
           lk_tabIndex := lk_tabIndex e1;
           lk_isActive := true |},
        (w1 ++ [Focus])%list)
  else (e1, w1).

(** *** [CanvasElement] *)

(** The private fields [width] and [height], which nothing assigns, and
    the canvas's [style.cursor].  The width and height of the canvas
    itself are written and never read: they are in the log of writes. *)
Record CanvasElement : Type := {
  cv_width : option Q;
  cv_height : option Q;
  cv_cursor : string
}.

Definition CanvasElement_createHTMLElement : CanvasElement :=
  {| cv_width := None; cv_height := None; cv_cursor := EmptyString |}.

(** [cached !== v] for a private number field that may be [undefined]. *)
Definition differs (cached : option Q) (v : Q) : bool :=
  match cached with
  | Some c => negb (Qeq_bool c v)
  | None => true
  end.

Definition CanvasElement_renderSelf (this : CanvasElement) (s : BaseState)
  : CanvasElement * list DomWrite :=
  let '(_, _, width, height) := windowBBox s in
  let w1 := if differs (cv_width this) width then [SetWidth width] else [] in
  let w2 :=
    if differs (cv_height this) height then [SetHeight height] else [] in
  if panning s && negb (String.eqb (cv_cursor this) "all-scroll")
  then ({| cv_width := cv_width this; cv_height := cv_height this;
           cv_cursor := "all-scroll" |},
        (w1 ++ w2 ++ [SetStyle "cursor" "all-scroll"])%list)
  else if negb (thumbnail (config s)) && negb (panning s)
          && negb (String.eqb (cv_cursor this) "default")
  then ({| cv_width := cv_width this; cv_height := cv_height this;
           cv_cursor := "default" |},
        (w1 ++ w2 ++ [SetStyle "cursor" "default"])%list)
  else (this, (w1 ++ w2)%list).

(** *** [ControlsElement] *)

(** The private field [showControls] and the two style properties the
    element writes. *)
Record ControlsElement : Type := {
  ct_showControls : option bool;
  ct_className : string;
  ct_opacity : string;
  ct_height : string
}.

Definition ControlsElement_createHTMLElement : ControlsElement :=
  {| ct_showControls := None;
     ct_className := "looker-controls";
     ct_opacity := EmptyString;
     ct_height := EmptyString |}.

(** [ControlsElement.isShown] and [OptionsPanelElement.isShown] *)
Definition Element_isShown (s : BaseState) : bool :=
  negb (thumbnail (config s)).

(** [cached === b] for a private boolean field that may be [undefined]. *)
Definition cachedIs (cached : option bool) (b : bool) : bool :=
  match cached with
  | Some c => Bool.eqb c b
  | None => false
  end.

Definition ControlsElement_renderSelf (this : ControlsElement)
  (s : BaseState) : ControlsElement * list DomWrite :=
  if thumbnail (config s) then (this, [])
  else
    let showControls := showControls s && negb (disableControls s) in
    if cachedIs (ct_showControls this) showControls then (this, [])
    else if showControls
    then ({| ct_showControls := Some showControls;
             ct_className := ct_className this;
             ct_opacity := "0.9";
             ct_height := "unset" |},
          [SetStyle "opacity" "0.9"; SetStyle "height" "unset"])
    else ({| ct_showControls := Some showControls;
             ct_className := ct_className this;
             ct_opacity := "0.0";
             ct_height := "0" |},
          [SetStyle "opacity" "0.0"; SetStyle "height" "0"]).

(** *** [OptionsPanelElement] *)

Record OptionsPanelElement : Type := {
  op_showOptions : option bool;
  op_classList : gset string;
  op_opacity : string
}.

Definition OptionsPanelElement_createHTMLElement : OptionsPanelElement :=
  {| op_showOptions := None;
     op_classList := {[ "looker-options-panel" ]};
     op_opacity := EmptyString |}.

Definition OptionsPanelElement_renderSelf (this : OptionsPanelElement)
  (s : BaseState) : OptionsPanelElement * list DomWrite :=
  if thumbnail (config s) then (this, [])
  else if cachedIs (op_showOptions this) (showOptions s) then (this, [])
  else if showOptions s
  then ({| op_showOptions := Some (showOptions s);
           op_classList := op_classList this ∖ {[ "looker-display-none" ]};
           op_opacity := "0.9" |},
        [SetStyle "opacity" "0.9"; ClassListRemove "looker-display-none"])
  else ({| op_showOptions := Some (showOptions s);
           op_classList := op_classList this ∪ {[ "looker-display-none" ]};
           op_opacity := "0.0" |},
        [SetStyle "opacity" "0.0"; ClassListAdd "looker-display-none"]).

(** *** [FullscreenButtonElement] *)

Record FullscreenButtonElement : Type := {
  fb_fullscreen : option bool;
  fb_src : string;
  fb_title : string
}.

Definition FullscreenButtonElement_createHTMLElement
  : FullscreenButtonElement :=
  {| fb_fullscreen := None; fb_src := EmptyString; fb_title := EmptyString |}.

Section Icons.

(** [ICONS.fullscreen] and [ICONS.fullscreenExit] of [./util], which is not
    part of the embedded files. *)
Variable ICONS_fullscreen ICONS_fullscreenExit : string.

Definition FullscreenButtonElement_renderSelf
  (this : FullscreenButtonElement) (s : BaseState)
  : FullscreenButtonElement * list DomWrite :=
  if cachedIs (fb_fullscreen this) (fullscreen s) then (this, [])
  else
    let src :=
      if fullscreen s then ICONS_fullscreenExit else ICONS_fullscreen in
    let title :=
      String.append (if fullscreen s then "Minimize" else "Maximize") " (m)" in
    ({| fb_fullscreen := Some (fullscreen s);
        fb_src := src;
        fb_title := title |},
     [SetSrc src; SetTitle title]).

End Icons.

(** The controls element shows the controls when it is told to and they
    are not disabled. *)
Definition controlsVisible (s : BaseState) : bool :=
  showControls s && negb (disableControls s).

(** A write removes the class [loading]. *)
Definition removesLoading (w : DomWrite) : bool :=
  match w with
  | ClassListRemove token => String.eqb token "loading"
  | _ => false
  end.

(** The cursor the canvas shows after a render. *)
Definition cursorFor (s : BaseState) (before : string) : string :=
  if panning s then "all-scroll"
  else if thumbnail (config s) then before
  else "default".

(** The cache of a [ControlsElement] agrees with its style: when
    [this.showControls] is set, the opacity and height are the ones written
    for that value. *)
Definition controlsCoherent (this : ControlsElement) : Prop :=
  match ct_showControls this with
  | Some true => ct_opacity this = "0.9" /\ ct_height this = "unset"
  | Some false => ct_opacity this = "0.0" /\ ct_height this = "0"
  | None => True
  end.

(** The same for an [OptionsPanelElement]: opacity and the class
    [looker-display-none]. *)
Definition optionsPanelCoherent (this : OptionsPanelElement) : Prop :=
  "looker-options-panel" ∈ op_classList this /\
  match op_showOptions this with
  | Some true =>
      op_opacity this = "0.9" /\ "looker-display-none" ∉ op_classList this
  | Some false =>
      op_opacity this = "0.0" /\ "looker-display-none" ∈ op_classList this
  | None => True
  end.

(** The same for a [FullscreenButtonElement]: source and title. *)
Definition fullscreenButtonCoherent (exitIcon enterIcon : string)
  (this : FullscreenButtonElement) : Prop :=
  match fb_fullscreen this with
  | Some true => fb_src this = exitIcon /\ fb_title this = "Minimize (m)"
  | Some false => fb_src this = enterIcon /\ fb_title this = "Maximize (m)"
  | None => True
  end.

(** An effect is a call of [event.preventDefault()]. *)
Definition isPreventDefault (e : Effect) : bool :=
  match e with
  | preventDefault => true
  | _ => false
  end.

(** The input goes to a listener of the looker or of the canvas. *)
Definition onLookerOrCanvas (i : Input) : bool :=
  match i with
  | Dom TheLookerElement _ _ | Dom TheCanvasElement _ _ => true
  | _ => false
  end.

(** ** The wheel handler's arithmetic in binary64 *)

(** What the updater of [wheel] reads, with every number an IEEE 754
    binary64 value, which is what a JavaScript number is. *)
Record WheelInput64 : Type := {
  w64_thumbnail : bool;
  w64_dimensions : float * float;
  w64_pan : float * float;
  w64_scale : float;
  w64_windowBBox : float * float * float * float;
  w64_x : float;
  w64_y : float;
  w64_deltaY : float
}.

(** The literal [1.15] as the binary64 value nearest to it. *)
Definition literal_1_15 : float := 0x1.2666666666666p+0%float.

(** The updater of [LookerElement.getEvents.wheel] on binary64 numbers:
    the [pan] and [scale] of the patch it returns, and [None] when it
    returns the empty patch (thumbnail mode, or a clamped scale that is
    [===] the current one). *)
Definition LookerElement_wheel_binary64
  (clampScale64 : float * float -> float * float -> float -> float)
  (i : WheelInput64) : option ((float * float) * float) :=
  let '(px, py) := w64_pan i in
  let '(tlx, tly, width, height) := w64_windowBBox i in
  if w64_thumbnail i then None
  else
    let x := (w64_x i - tlx)%float in
    let y := (w64_y i - tly)%float in
    let xs := ((x - px) / w64_scale i)%float in
    let ys := ((y - py) / w64_scale i)%float in
    let newScale :=
      clampScale64 (width, height) (w64_dimensions i)
        (if PrimFloat.ltb (w64_deltaY i) 0%float
         then (w64_scale i * literal_1_15)%float
         else (w64_scale i / literal_1_15)%float) in
    if PrimFloat.eqb (w64_scale i) newScale then None
    else Some (((x - xs * newScale)%float, (y - ys * newScale)%float),
               newScale).

(** [(cursor - pan) / scale] on binary64 numbers. *)
Definition unscaled64 (pan : float * float) (scale : float)
  (cursor : float * float) : float * float :=
  (((fst cursor - fst pan) / scale)%float,
   ((snd cursor - snd pan) / scale)%float).

(** [clampOneToTen] on binary64 numbers. *)
Definition clampOneToTen64 (_ _ : float * float) (candidate : float)
  : float :=
  if PrimFloat.ltb candidate 1%float then 1%float
  else if PrimFloat.ltb 10%float candidate then 10%float
  else candidate.

(** The viewer of [aState] with the pointer at [(x, y)] and a wheel delta
    [dy]. *)
Definition wheelAt64 (x y dy : float) : WheelInput64 :=
  {| w64_thumbnail := false;
     w64_dimensions := (1600%float, 1200%float);
     w64_pan := (0%float, 0%float);
     w64_scale := 1%float;
     w64_windowBBox := (0%float, 0%float, 800%float, 600%float);
     w64_x := x;
     w64_y := y;
     w64_deltaY := dy |}.

(** The cursor relative to the window's top-left corner, [x] and [y] of
    the updater. *)
Definition cursorInWindow64 (i : WheelInput64) : float * float :=
  let '(tlx, tly, _, _) := w64_windowBBox i in
  ((w64_x i - tlx)%float, (w64_y i - tly)%float).

(** The numbers after the patch of the updater is merged: [pan] and
    [scale] are replaced when the patch has them. *)
Definition committed64
  (clampScale64 : float * float -> float * float -> float -> float)
  (i : WheelInput64) : WheelInput64 :=
  match LookerElement_wheel_binary64 clampScale64 i with
  | Some (newPan, newScale) =>
      {| w64_thumbnail := w64_thumbnail i;
         w64_dimensions := w64_dimensions i;
         w64_pan := newPan;
         w64_scale := newScale;
         w64_windowBBox := w64_windowBBox i;
         w64_x := w64_x i;
         w64_y := w64_y i;
         w64_deltaY := w64_deltaY i |}
  | None => i
  end.

(** The unscaled coordinate under the cursor in the numbers [i]. *)
Definition underCursor64 (i : WheelInput64) : float * float :=
  unscaled64 (w64_pan i) (w64_scale i) (cursorInWindow64 i).

(** [k] wheel events in a row, each with the pointer and the delta of
    [i]. *)
Fixpoint wheels64 (k : nat) (i : WheelInput64) : WheelInput64 :=
  match k with
  | O => i
  | S k' => wheels64 k' (committed64 clampOneToTen64 i)
  end.

(** Whether one more wheel event moves the unscaled coordinate under the
    cursor by no more than [tolerance] in each direction. *)
Definition keepsPoint64 (tolerance : float) (i : WheelInput64) : bool :=
  let before := underCursor64 i in
  let after := underCursor64 (committed64 clampOneToTen64 i) in
  PrimFloat.leb (abs (fst after - fst before)%float) tolerance
  && PrimFloat.leb (abs (snd after - snd before)%float) tolerance.

(** The pointer positions [(n, n)], [(n - 1, n - 1)], ..., [(0, 0)]. *)
Fixpoint diagonal64 (n : nat) (c : float) : list (float * float) :=
  match n with
  | O => [(c, c)]
  | S n' => (c, c) :: diagonal64 n' (c - 1)%float
  end.


(** ** What the further statements speak of *)

(** The timers the looker owns and the host's table agree: every pending
    handle is older than the next one, the pending hide-controls timers are
    the one in [this.hideControlsTimeout], and the pending wheel-settle
    timers are the one in [this.wheelTimeout]. *)
Definition timersCoherent (w : World) : Prop :=
  (forall h task, timers w !! h = Some task -> (h < nextTimer w)%positive) /\
  (forall h, timers w !! h = Some HideControlsTask
             <-> hideControlsTimeout (looker w) = Some h) /\
  (forall h, timers w !! h = Some WheelSettleTask
             <-> wheelTimeout (looker w) = Some h).

(** A pointer move over the looker. *)
Definition lookerMove (m : list Overlay * DomEvent) : list Overlay * Input :=
  (fst m, Dom TheLookerElement mousemove (snd m)).

(** The inputs whose handlers can write [pan] or [scale] when no drag is
    under way: pointer-down, wheel and double click on the looker. *)
Definition startsPanOrZoom (i : Input) : bool :=
  match i with
  | Dom TheLookerElement mousedown _
  | Dom TheLookerElement wheel _
  | Dom TheLookerElement dblclick _ => true
  | _ => false
  end.

(** The looker's [mouseleave]. *)
Definition isLookerMouseleave (i : Input) : bool :=
  match i with
  | Dom TheLookerElement mouseleave _ => true
  | _ => false
  end.

(** The elements whose [click] toggles one boolean of the state. *)
Definition isToggle (c : ElementClass) : bool :=
  match c with
  | TheFullscreenButtonElement
  | TheOptionsButtonElement
  | TheOnlyShowHoveredOnLabelOptionElement
  | TheShowLabelOptionElement
  | TheShowConfidenceOptionElement
  | TheShowTooltipOptionElement => true
  | _ => false
  end.

(** The key a click on one of the three rows that dispatch [options]
    toggles. *)
Definition toggledKey (c : ElementClass) (o : Options) : option OptionUpdate :=
  match c with
  | TheShowLabelOptionElement => Some (Set_showLabel (negb (showLabel o)))
  | TheShowConfidenceOptionElement =>
      Some (Set_showConfidence (negb (showConfidence o)))
  | TheShowTooltipOptionElement =>
      Some (Set_showTooltip (negb (showTooltip o)))
  | _ => None
  end.

(** An effect is an [options] event. *)
Definition isOptionsEvent (e : Effect) : bool :=
  match e with
  | dispatchEvent name _ => String.eqb name "options"
  | _ => false
  end.

(** What one input makes of [rotate]: the arrow keys step it, a pointer
    move over the looker resets it, nothing else touches it. *)
Definition rotateAfter (i : Input) (r : Z) : Z :=
  match i with
  | Dom TheLookerElement keydown event =>
      if String.eqb (ev_key event) "ArrowDown" then r + 1
      else if String.eqb (ev_key event) "ArrowUp" then Z.max (r - 1) 0
      else r
  | Dom TheLookerElement mousemove _ => 0
  | _ => r
  end.

(** The inputs whose handlers pass the tooltip resolver to [update]: the
    two arrow keys and the wheel on the looker, a pointer move on the
    canvas. *)
Definition invokesTooltipResolver (i : Input) : bool :=
  match i with
  | Dom TheLookerElement keydown event =>
      String.eqb (ev_key event) "ArrowDown"
      || String.eqb (ev_key event) "ArrowUp"
  | Dom TheLookerElement wheel _ => true
  | Dom TheCanvasElement mousemove _ => true
  | _ => false
  end.

(** An effect is a [select] event. *)
Definition isSelect (e : Effect) : bool :=
  match e with
  | dispatchEvent name _ => String.eqb name "select"
  | _ => false
  end.

(** A click on the canvas. *)
Definition isCanvasClick (i : Input) : bool :=
  match i with
  | Dom TheCanvasElement click _ => true
  | _ => false
  end.

(** A click on one of the four rows of the options panel. *)
Definition isOptionRowClick (i : Input) : bool :=
  match i with
  | Dom TheOnlyShowHoveredOnLabelOptionElement click _
  | Dom TheShowLabelOptionElement click _
  | Dom TheShowConfidenceOptionElement click _
  | Dom TheShowTooltipOptionElement click _ => true
  | _ => false
  end.

(** The key of [options] a click on a row of the options panel commits,
    and the key it announces in an [options] event. *)
Definition committedKey (i : Input) (o : Options) : option OptionUpdate :=
  match i with
  | Dom TheOnlyShowHoveredOnLabelOptionElement click _ =>
      Some (Set_onlyShowHoveredLabel (negb (onlyShowHoveredLabel o)))
  | Dom c click _ => toggledKey c o
  | _ => None
  end.

Definition announcedKey (i : Input) (o : Options) : option OptionUpdate :=
  match i with
  | Dom c click _ => toggledKey c o
  | _ => None
  end.

(** A thumbnail of the viewer [aWorld]. *)
Definition aThumbnail : World :=
  {| state :=
       {| rotate := 0;
          showControls := false;
          showOptions := false;
          hovering := false;
          hoveringControls := false;
          disableControls := false;
          panning := false;
          wheeling := false;
          canZoom := true;
          fullscreen := false;
          loaded := true;
          playing := false;
          frameNumber := None;
          pan := (0%Q, 0%Q);
          scale := 1%Q;
          windowBBox := (0%Q, 0%Q, 200%Q, 150%Q);
          cursorCoordinates := (0%Q, 0%Q);
          config := {| thumbnail := true; dimensions := (1600%Q, 1200%Q) |};
          options := someOptions |};
     looker := {| hideControlsTimeout := None;
                  start := (0%Q, 0%Q);
                  wheelTimeout := None |};
     timers := ∅;
     nextTimer := 1%positive |}.

(** * Properties *)

(** Unfolds the handler computations so that [cbn] can run them. *)
Ltac run_handler :=
  unfold exec, update, bind, this, ret, emit, setStart,
    setHideControlsTimeout, setWheelTimeout, withLooker, setTimeout,
    clearTimeout in *;
  cbn in *.

(** Unfolds the handlers of every element. *)
Ltac unfold_handlers :=
  unfold LookerElement_keydown, LookerElement_mouseenter,
    LookerElement_mouseleave, LookerElement_mousedown, LookerElement_mouseup,
    LookerElement_mousemove, LookerElement_dblclick, LookerElement_wheel,
    CanvasElement_click, CanvasElement_mouseleave, CanvasElement_mousemove,
    ControlsElement_click, setHoveringControls, preventAndStop,
    FullscreenButtonElement_click, stopOnly, OptionsButtonElement_click,
    stopAndPrevent, OnlyShowHoveredOnLabelOptionElement_click,
    ShowLabelOptionElement_click, ShowConfidenceOptionElement_click,
    ShowTooltipOptionElement_click, toggleOption, fireTimer,
    hideControlsCallback, wheelSettleCallback in *.

(** Splits on the tests a handler makes. *)
Ltac split_cases :=
  repeat match goal with
         | |- context [if ?b then _ else _] => destruct b eqn:?
         | |- context [match ?x with Some _ => _ | None => _ end] =>
             destruct x eqn:?
         | |- context [match ?x with
                       | HideControlsTask => _
                       | WheelSettleTask => _
                       end] => destruct x eqn:?
         end.

(** Runs one [step] on every input, case by case. *)
Ltac by_cases_on_input i w :=
  destruct i as [[] [] ?event | ?h]; cbn [step getEvents
    LookerElement_getEvents CanvasElement_getEvents ControlsElement_getEvents
    OptionsPanelElement_getEvents onClick];
  unfold_handlers; run_handler;
  destruct (pan (state w)) as [?px ?py] eqn:?Hpan;
  destruct (windowBBox (state w)) as [[[?tlx ?tly] ?width] ?height] eqn:?Hbox;
  run_handler; split_cases; run_handler.


(** ** [overlays/base.ts] *)

Lemma includes_elem_of (l : list string) (x : string) :
  includes l x = true <-> x ∈ l.
Proof.
  unfold includes. rewrite existsb_exists, list_elem_of_In. split.
  - intros (y & Hy & Heq). apply String.eqb_eq in Heq. now subst.
  - intros Hx. exists x. split; [assumption | apply String.eqb_refl].
Qed.

Lemma includes_not_elem_of (l : list string) (x : string) :
  includes l x = false <-> x ∉ l.
Proof.
  rewrite <- includes_elem_of. destruct (includes l x); split; congruence.
Qed.

Lemma excluded_dec (s : BaseState) (f : string) :
  excluded s f \/ ~ excluded s f.
Proof.
  unfold excluded. destruct (activePaths (options s)) as [paths|].
  - destruct (includes paths f) eqn:E.
    + right. intros (p & [= <-] & Hn). apply includes_elem_of in E. tauto.
    + left. exists paths. split; [reflexivity|]. now apply includes_not_elem_of.
  - right. intros (p & Hp & _). discriminate.
Qed.

Lemma isShown_excluded `{Runtime} (s : BaseState) (f : string)
  (l : RegularLabel) :
  excluded s f -> isShown s f l = Returns false.
Proof.
  intros (paths & Hp & Hn). unfold isShown. rewrite Hp.
  apply includes_not_elem_of in Hn. now rewrite Hn.
Qed.

Lemma isShown_not_excluded `{Runtime} (s : BaseState) (f : string)
  (l : RegularLabel) :
  ~ excluded s f ->
  isShown s f l =
  match filterProperty s f with
  | Some member => member l
  | None => Returns true
  end.
Proof.
  intros Hn. unfold isShown, filterProperty.
  assert (Hactive :
    match activePaths (options s) with
    | Some paths => negb (includes paths f)
    | None => false
    end = false).
  { destruct (activePaths (options s)) as [paths|] eqn:Hp; [|reflexivity].
    destruct (includes paths f) eqn:E; [reflexivity|].
    exfalso. apply Hn. exists paths. split; [assumption|].
    now apply includes_not_elem_of. }
  rewrite Hactive.
  destruct (filter (options s)) as [filters|]; [|reflexivity].
  destruct (filters !! f); [reflexivity|].
  destruct (objectPrototype f); reflexivity.
Qed.

(** An own predicate shadows [Object.prototype]. *)
Lemma filterProperty_own `{Runtime} (s : BaseState) (f : string)
  (predicate : RegularLabel -> Result bool) :
  fieldFilter s f = Some predicate ->
  filterProperty s f = Some (fun l => verdict (predicate l)).
Proof.
  unfold fieldFilter, filterProperty.
  destruct (filter (options s)) as [filters|]; cbn; [|discriminate].
  now intros ->.
Qed.



(** C4, as it is stated, fails: with the field active and a filter that
    throws on the label, [isShown] throws; it does not return [true]. *)
Lemma isShown_fail_open_refuted :
  fieldFilter (withOptions aState filteredOptions) "ground_truth"
    = Some confidentOnly /\
  confidentOnly bareLabel = Throws "TypeError: confidence is undefined" /\
  isShown (withOptions aState filteredOptions) "ground_truth" bareLabel
    = Throws "TypeError: confidence is undefined" /\
  isShown (withOptions aState filteredOptions) "ground_truth" bareLabel
    <> Returns true.
Proof.
  repeat split; try reflexivity. vm_compute. discriminate.
Qed.

(** C4, amended.  When the per-field filter throws on the label, [isShown]
    never returns [true]: if [activePaths] excludes the field it returns
    [false] and the predicate is not consulted, and otherwise the
    predicate's error is the outcome of [isShown]. *)
Theorem isShown_propagates_error `{Runtime} (s : BaseState) (f : string)
  (l : RegularLabel) (predicate : RegularLabel -> Result bool)
  (error : string) :
  fieldFilter s f = Some predicate ->
  predicate l = Throws error ->
  (excluded s f -> isShown s f l = Returns false) /\
  (~ excluded s f -> isShown s f l = Throws error) /\
  isShown s f l <> Returns true.
Proof.
  intros Hf Hp. split; [apply isShown_excluded|].
  assert (Hactive : ~ excluded s f -> isShown s f l = Throws error).
  { intros Hn. rewrite isShown_not_excluded by assumption.
    rewrite (filterProperty_own s f predicate Hf), Hp. reflexivity. }
  split; [exact Hactive|].
  destruct (excluded_dec s f) as [He|Hn].
  - rewrite isShown_excluded by assumption. discriminate.
  - rewrite Hactive by assumption. discriminate.
Qed.

Lemma isShown_propagates_error_witness :
  fieldFilter (withOptions aState filteredOptions) "ground_truth"
    = Some confidentOnly /\
  confidentOnly bareLabel = Throws "TypeError: confidence is undefined" /\
  ~ excluded (withOptions aState filteredOptions) "ground_truth" /\
  isShown (withOptions aState filteredOptions) "ground_truth" bareLabel
    = Throws "TypeError: confidence is undefined".
Proof.
  assert (Hactive :
            ~ excluded (withOptions aState filteredOptions) "ground_truth").
  { intros (paths & Hp & Hn). vm_compute in Hp.
    injection Hp as <-. apply Hn. apply includes_elem_of. reflexivity. }
  split; [reflexivity|]. split; [reflexivity|]. split; [exact Hactive|].
  exact (proj1 (proj2 (isShown_propagates_error
            (withOptions aState filteredOptions) "ground_truth" bareLabel
            confidentOnly "TypeError: confidence is undefined"
            eq_refl eq_refl)) Hactive).
Defined.

Lemma getColor_when_set getColor (this : CoordinateOverlay) (s : BaseState) :
  colorIsSet (co_color this) = true ->
  CoordinateOverlay_getColor getColor this s =
  {| returned := default EmptyString (co_color this);
     after := this;
     wrote := false |}.
Proof.
  intros Hset. unfold CoordinateOverlay_getColor. now rewrite Hset.
Qed.

Lemma getColorCalls_when_set getColor (this : CoordinateOverlay)
  (states : list BaseState) :
  colorIsSet (co_color this) = true ->
  getColorCalls getColor this states =
  (repeat (default EmptyString (co_color this)) (length states), 0%nat, this).
Proof.
  intros Hset. induction states as [|s rest IH]; [reflexivity|].
  cbn [getColorCalls]. rewrite getColor_when_set by assumption.
  cbn [after returned wrote]. rewrite IH. reflexivity.
Qed.

(** The first call leaves the string it returns in [this.color]. *)
Lemma getColor_caches_returned getColor (this : CoordinateOverlay)
  (s : BaseState) :
  colorIsSet (Some (returned (CoordinateOverlay_getColor getColor this s)))
    = true ->
  co_color (after (CoordinateOverlay_getColor getColor this s))
    = Some (returned (CoordinateOverlay_getColor getColor this s)).
Proof.
  unfold CoordinateOverlay_getColor.
  destruct (colorIsSet (co_color this)) eqn:Hset; cbn; [|reflexivity].
  destruct (co_color this); [reflexivity | discriminate].
Qed.

(** C9, amended.  The colour is cached on the instance once there is one:
    when the first call of [getColor] on an overlay returns a colour (a
    string that is not empty),
    every later call returns that same string whatever the coloring
    options of its state are, no later call assigns [this.color], and the
    whole sequence of calls assigns it at most once. *)
Theorem getColor_cached_for_life
  (getColor : list string -> Z -> option string -> string)
  (this : CoordinateOverlay) (s0 : BaseState) (later : list BaseState) :
  returned (CoordinateOverlay_getColor getColor this s0) <> EmptyString ->
  getColorCalls getColor
    (after (CoordinateOverlay_getColor getColor this s0)) later
  = (repeat (returned (CoordinateOverlay_getColor getColor this s0))
            (length later),
     0%nat,
     after (CoordinateOverlay_getColor getColor this s0)) /\
  exists writes : nat,
    (writes <= 1)%nat /\
    getColorCalls getColor this (s0 :: later)
    = (repeat (returned (CoordinateOverlay_getColor getColor this s0))
              (S (length later)),
       writes,
       after (CoordinateOverlay_getColor getColor this s0)).
Proof.
  intros Hcolor.
  assert (Hset : colorIsSet
            (Some (returned (CoordinateOverlay_getColor getColor this s0)))
          = true).
  { cbn. apply negb_true_iff. now apply String.eqb_neq. }
  pose proof (getColor_caches_returned getColor this s0 Hset) as Hcached.
  assert (Hlater :
    getColorCalls getColor
      (after (CoordinateOverlay_getColor getColor this s0)) later
    = (repeat (returned (CoordinateOverlay_getColor getColor this s0))
              (length later),
       0%nat,
       after (CoordinateOverlay_getColor getColor this s0))).
  { rewrite getColorCalls_when_set by (rewrite Hcached; exact Hset).
    rewrite Hcached. reflexivity. }
  split; [exact Hlater|].
  exists (if wrote (CoordinateOverlay_getColor getColor this s0)
          then 1%nat else 0%nat).
  split.
  - destruct (wrote _); lia.
  - cbn [getColorCalls]. rewrite Hlater. cbn [repeat]. f_equal. f_equal. lia.
Qed.

Lemma getColor_cached_for_life_witness :
  returned (CoordinateOverlay_getColor poolHead
              (newCoordinateOverlay "ground_truth" aLabel) aState)
    <> EmptyString /\
  getColorCalls poolHead (newCoordinateOverlay "ground_truth" aLabel)
    [aState;
     colouredBy {| byLabel := true; pool := ["#0000ee"]; seed := 7 |};
     colouredBy {| byLabel := false; pool := []; seed := 1 |}]
  = (["#ee0000"; "#ee0000"; "#ee0000"], 1%nat,
     {| field := "ground_truth"; co_label := aLabel;
        co_color := Some "#ee0000" |}).
Proof.
  split; [vm_compute; discriminate|].
  destruct (getColor_cached_for_life poolHead
              (newCoordinateOverlay "ground_truth" aLabel) aState
              [colouredBy {| byLabel := true; pool := ["#0000ee"];
                             seed := 7 |};
               colouredBy {| byLabel := false; pool := []; seed := 1 |}])
    as [_ [writes [_ Hcalls]]].
  - vm_compute. discriminate.
  - reflexivity.
Defined.

(** C9, as it is stated, fails: a first call that returns the empty
    string leaves [this.color] falsy, so the second call, with a state of
    other coloring options, computes again, returns another string and
    assigns [this.color] a second time. *)
Lemma getColor_recomputed_after_empty_color :
  getColorCalls poolHead (newCoordinateOverlay "ground_truth" aLabel)
    [colouredBy {| byLabel := false; pool := []; seed := 1 |}; aState]
  = ([EmptyString; "#ee0000"], 2%nat,
     {| field := "ground_truth"; co_label := aLabel;
        co_color := Some "#ee0000" |}) /\
  returned
    (CoordinateOverlay_getColor poolHead
       (after
          (CoordinateOverlay_getColor poolHead
             (newCoordinateOverlay "ground_truth" aLabel)
             (colouredBy {| byLabel := false; pool := []; seed := 1 |})))
       aState)
  <> returned
       (CoordinateOverlay_getColor poolHead
          (newCoordinateOverlay "ground_truth" aLabel)
          (colouredBy {| byLabel := false; pool := []; seed := 1 |})) /\
  wrote
    (CoordinateOverlay_getColor poolHead
       (newCoordinateOverlay "ground_truth" aLabel)
       (colouredBy {| byLabel := false; pool := []; seed := 1 |})) = true /\
  wrote
    (CoordinateOverlay_getColor poolHead
       (after
          (CoordinateOverlay_getColor poolHead
             (newCoordinateOverlay "ground_truth" aLabel)
             (colouredBy {| byLabel := false; pool := []; seed := 1 |})))
       aState) = true.
Proof.
  split; [reflexivity|]. split; [vm_compute; discriminate|].
  split; reflexivity.
Qed.

(** ** [elements/common.ts] *)

Lemma mergeUpdates_nil (s : BaseState) : mergeUpdates s [] = s.
Proof. destruct s. reflexivity. Qed.

Lemma world_eta (w : World) :
  {| state := state w; looker := looker w; timers := timers w;
     nextTimer := nextTimer w |} = w.
Proof. destruct w. reflexivity. Qed.

(** An updater that only returns the empty patch leaves the world as it
    was and runs the callback on the unchanged state. *)
Lemma update_empty (overlays : list Overlay) (cb : option PostUpdate)
  (fx : list Effect) (w : World) :
  exec (update overlays (fun _ w' => ([], w', fx)) cb) w
  = (w, (fx ++ match cb with
               | Some callback => callback (state w) overlays
               | None => []
               end)%list).
Proof.
  unfold exec, update. rewrite mergeUpdates_nil, world_eta. reflexivity.
Qed.

Section Wheel.

Variable clampScale : Dimensions -> Dimensions -> Q -> Q.

(** The wheel handler when the clamped scale is the current one. *)
Lemma wheel_unchanged_scale (overlays : list Overlay) (event : DomEvent)
  (w : World) :
  thumbnail (config (state w)) = false ->
  Qeq_bool (scale (state w)) (clampedScale clampScale (state w) event) = true ->
  exec (LookerElement_wheel clampScale overlays event) w
  = (w, preventDefault :: dispatchTooltipEvent (state w) overlays).
Proof.
  intros Hthumb Hsame.
  unfold LookerElement_wheel, exec, update, clampedScale, requestedScale in *.
  destruct (pan (state w)) as [px py].
  destruct (windowBBox (state w)) as [[[tlx tly] width] height].
  rewrite Hthumb. cbn. rewrite Hsame. cbn.
  rewrite mergeUpdates_nil, world_eta. reflexivity.
Qed.


(** C3.  A wheel event whose clamped scale is the current scale changes
    nothing: outside thumbnail mode the world after the handler is the
    world before it, so [pan], [scale], [cursorCoordinates] and [canZoom]
    keep their values, [wheeling] is not set, and the settle timer is
    neither cleared nor scheduled again (the table of pending timers, the
    handle in [this.wheelTimeout] and the next handle are all as before). *)
Theorem wheel_noop (overlays : list Overlay) (event : DomEvent) (w : World) :
  thumbnail (config (state w)) = false ->
  (clampedScale clampScale (state w) event == scale (state w))%Q ->
  fst (exec (LookerElement_wheel clampScale overlays event) w) = w /\
  state (fst (exec (LookerElement_wheel clampScale overlays event) w))
    = state w /\
  wheeling (state (fst (exec (LookerElement_wheel clampScale overlays event)
                         w)))
    = wheeling (state w) /\
  timers (fst (exec (LookerElement_wheel clampScale overlays event) w))
    = timers w /\
  wheelTimeout
    (looker (fst (exec (LookerElement_wheel clampScale overlays event) w)))
    = wheelTimeout (looker w) /\
  nextTimer (fst (exec (LookerElement_wheel clampScale overlays event) w))
    = nextTimer w.
Proof.
  intros Hthumb Hsame.
  rewrite wheel_unchanged_scale; [repeat split | assumption |].
  apply Qeq_bool_iff. symmetry. exact Hsame.
Qed.


End Wheel.

(** Zooming out at scale 1, where [clampOneToTen] holds the scale at 1. *)
Lemma wheel_noop_witness :
  thumbnail (config (state aWorld)) = false /\
  (clampedScale clampOneToTen (state aWorld) (mouseAt 400 300 100)
   == scale (state aWorld))%Q /\
  fst (exec (LookerElement_wheel clampOneToTen [anOverlay BORDER]
               (mouseAt 400 300 100)) aWorld) = aWorld.
Proof.
  assert (Hsame : (clampedScale clampOneToTen (state aWorld)
                     (mouseAt 400 300 100) == scale (state aWorld))%Q)
    by (vm_compute; reflexivity).
  split; [reflexivity|]. split; [exact Hsame|].
  exact (proj1 (wheel_noop clampOneToTen [anOverlay BORDER]
                  (mouseAt 400 300 100) aWorld eq_refl Hsame)).
Defined.



(** In binary64 the point under the pointer stays within rounding on the
    viewer of [aState]: with the pointer at any of the positions (n,n),
    n = 0, ..., 599, and after any number up to twenty of zoom-in events
    there, one more zoom in moves the unscaled coordinate under the cursor
    by at most 2^-40 in each direction. *)
Lemma wheel_keeps_point_within_rounding (c : float * float) (k : nat) :
  In c (diagonal64 599 599) -> (k <= 20)%nat ->
  keepsPoint64 0x1p-40
    (wheels64 k (wheelAt64 (fst c) (snd c) (-100))) = true.
Proof.
  intros Hc Hk.
  assert (Hall :
    forallb (fun c =>
      forallb (fun k =>
        keepsPoint64 0x1p-40
          (wheels64 k (wheelAt64 (fst c) (snd c) (-100))))
        (seq 0 21))
      (diagonal64 599 599) = true) by (vm_compute; reflexivity).
  rewrite forallb_forall in Hall. specialize (Hall c Hc).
  rewrite forallb_forall in Hall. apply Hall.
  apply in_seq. lia.
Qed.

(** C10.  The [s] key commits a patch that sets [showOptions] and
    [showControls] to the values they have: the world after the handler is
    the world before it, in every field, and nothing is dispatched. *)
Theorem s_key_changes_nothing (overlays : list Overlay) (event : DomEvent)
  (w : World) :
  ev_key event = "s" ->
  exec (LookerElement_keydown overlays event) w = (w, []) /\
  state (fst (exec (LookerElement_keydown overlays event) w)) = state w /\
  mergeUpdates (state w)
    [Set_showOptions (showOptions (state w));
     Set_showControls (showControls (state w))] = state w.
Proof.
  intros Hkey.
  assert (Hmerge : mergeUpdates (state w)
            [Set_showOptions (showOptions (state w));
             Set_showControls (showControls (state w))] = state w).
  { destruct (state w). reflexivity. }
  assert (Hexec : exec (LookerElement_keydown overlays event) w = (w, [])).
  { unfold LookerElement_keydown. rewrite Hkey. cbn. run_handler.
    rewrite Hmerge, world_eta. reflexivity. }
  rewrite Hexec. auto.
Qed.

Lemma s_key_changes_nothing_witness :
  ev_key (keyPress "s") = "s" /\
  exec (LookerElement_keydown [anOverlay BORDER] (keyPress "s")) aWorld
    = (aWorld, []).
Proof.
  split; [reflexivity|].
  exact (proj1 (s_key_changes_nothing [anOverlay BORDER] (keyPress "s")
                  aWorld eq_refl)).
Defined.

(** *** Rotation *)

Lemma keydown_ArrowDown (overlays : list Overlay) (event : DomEvent)
  (w : World) :
  ev_key event = "ArrowDown" ->
  state (fst (exec (LookerElement_keydown overlays event) w))
  = mergeUpdates (state w) [Set_rotate (rotate (state w) + 1)].
Proof.
  intros Hkey. unfold LookerElement_keydown. rewrite Hkey. reflexivity.
Qed.

Lemma keydown_ArrowUp (overlays : list Overlay) (event : DomEvent)
  (w : World) :
  ev_key event = "ArrowUp" ->
  state (fst (exec (LookerElement_keydown overlays event) w))
  = mergeUpdates (state w) [Set_rotate (Z.max (rotate (state w) - 1) 0)].
Proof.
  intros Hkey. unfold LookerElement_keydown. rewrite Hkey. reflexivity.
Qed.

(** Every key leaves a [rotate] that was not negative not negative. *)
Lemma keydown_rotate_nonneg (overlays : list Overlay) (event : DomEvent)
  (w : World) :
  0 <= rotate (state w) ->
  0 <= rotate (state (fst (exec (LookerElement_keydown overlays event) w))).
Proof.
  intros Hpos. unfold LookerElement_keydown.
  repeat match goal with
         | |- context [if ?b then _ else _] => destruct b
         end; cbn; lia.
Qed.

Section Traces.

Variable clampScale : Dimensions -> Dimensions -> Q -> Q.

Lemma run_cons (overlays : list Overlay) (i : Input)
  (rest : list (list Overlay * Input)) (w : World) :
  run clampScale ((overlays, i) :: rest) w
  = (fst (run clampScale rest (fst (step clampScale overlays i w))),
     (snd (step clampScale overlays i w)
      ++ snd (run clampScale rest (fst (step clampScale overlays i w))))%list).
Proof.
  cbn [run]. destruct (step clampScale overlays i w) as [w1 fx1].
  cbn [fst snd]. destruct (run clampScale rest w1). reflexivity.
Qed.

(** No input makes a [rotate] that was not negative negative. *)
Lemma step_rotate_nonneg (overlays : list Overlay) (i : Input) (w : World) :
  0 <= rotate (state w) ->
  0 <= rotate (state (fst (step clampScale overlays i w))).
Proof.
  intros Hpos. by_cases_on_input i w; lia.
Qed.

Lemma run_rotate_nonneg (inputs : list (list Overlay * Input)) (w : World) :
  0 <= rotate (state w) ->
  0 <= rotate (state (fst (run clampScale inputs w))).
Proof.
  revert w. induction inputs as [|[overlays i] rest IH]; intros w Hpos.
  - exact Hpos.
  - rewrite run_cons. cbn [fst]. apply IH. now apply step_rotate_nonneg.
Qed.

(** C8.  In a state whose [rotate] is not negative, the [ArrowDown] key
    commits [rotate + 1] and the [ArrowUp] key commits
    [max(rotate - 1, 0)]; and after any sequence of [ArrowUp] and
    [ArrowDown] keys [rotate] is still not negative. *)
Theorem rotate_never_negative (w : World) :
  0 <= rotate (state w) ->
  (forall overlays event,
      ev_key event = "ArrowDown" ->
      rotate (state (fst (step clampScale overlays
                            (Dom TheLookerElement keydown event) w)))
      = rotate (state w) + 1) /\
  (forall overlays event,
      ev_key event = "ArrowUp" ->
      rotate (state (fst (step clampScale overlays
                            (Dom TheLookerElement keydown event) w)))
      = Z.max (rotate (state w) - 1) 0) /\
  (forall inputs,
      forallb (fun oi => isArrowKey (snd oi)) inputs = true ->
      0 <= rotate (state (fst (run clampScale inputs w)))).
Proof.
  intros Hpos. repeat split.
  - intros overlays event Hkey. cbn [step getEvents LookerElement_getEvents].
    now rewrite keydown_ArrowDown.
  - intros overlays event Hkey. cbn [step getEvents LookerElement_getEvents].
    now rewrite keydown_ArrowUp.
  - intros inputs _. now apply run_rotate_nonneg.
Qed.

(** *** Panning *)

Lemma mousedown_anchors (overlays : list Overlay) (event : DomEvent)
  (w : World) :
  thumbnail (config (state w)) = false ->
  dragging ((ev_pageX event - fst (pan (state w)))%Q,
            (ev_pageY event - snd (pan (state w)))%Q)
           (fst (step clampScale overlays
                   (Dom TheLookerElement mousedown event) w)).
Proof.
  intros Hthumb. cbn [step getEvents LookerElement_getEvents].
  unfold LookerElement_mousedown, dragging.
  run_handler. destruct (pan (state w)) as [x y]. rewrite Hthumb.
  cbn. auto.
Qed.

Lemma mousemove_pans (anchor : Coordinates) (overlays : list Overlay)
  (event : DomEvent) (w : World) :
  dragging anchor w ->
  dragging anchor (fst (step clampScale overlays
                          (Dom TheLookerElement mousemove event) w)) /\
  pan (state (fst (step clampScale overlays
                     (Dom TheLookerElement mousemove event) w)))
  = ((ev_pageX event - fst anchor)%Q, (ev_pageY event - snd anchor)%Q).
Proof.
  intros (Hthumb & Hpanning & Hstart).
  cbn [step getEvents LookerElement_getEvents].
  unfold LookerElement_mousemove, dragging, getPan. run_handler.
  destruct (hideControlsTimeout (looker w)); cbn;
    rewrite Hthumb, Hpanning; cbn; rewrite Hstart;
    destruct anchor as [sx sy]; cbn; auto.
Qed.

Lemma mouseup_pans (anchor : Coordinates) (overlays : list Overlay)
  (event : DomEvent) (w : World) :
  dragging anchor w ->
  pan (state (fst (step clampScale overlays
                     (Dom TheLookerElement mouseup event) w)))
  = ((ev_pageX event - fst anchor)%Q, (ev_pageY event - snd anchor)%Q).
Proof.
  intros (Hthumb & Hpanning & Hstart).
  cbn [step getEvents LookerElement_getEvents].
  unfold LookerElement_mouseup, getPan. run_handler.
  rewrite Hthumb, Hpanning; cbn; rewrite Hstart.
  destruct anchor as [sx sy]; reflexivity.
Qed.

Lemma moves_keep_dragging (anchor : Coordinates)
  (moves : list (list Overlay * DomEvent)) (w : World) :
  dragging anchor w ->
  dragging anchor
    (fst (run clampScale
            (map (fun m => (fst m, Dom TheLookerElement mousemove (snd m)))
                 moves) w)).
Proof.
  revert w. induction moves as [|[overlays event] rest IH]; intros w Hdrag.
  - exact Hdrag.
  - cbn [map fst snd]. rewrite run_cons. cbn [fst]. apply IH.
    now apply mousemove_pans.
Qed.

(** What a drag commits, for every drag. *)
Lemma drag_commits_anchored_pan (down : list Overlay * DomEvent)
  (moves : list (list Overlay * DomEvent)) (overlays : list Overlay)
  (event : DomEvent) (w : World) :
  thumbnail (config (state w)) = false ->
  start (looker (fst (run clampScale (drag down moves) w)))
  = ((ev_pageX (snd down) - fst (pan (state w)))%Q,
     (ev_pageY (snd down) - snd (pan (state w)))%Q) /\
  pan (state (fst (step clampScale overlays
                     (Dom TheLookerElement mousemove event)
                     (fst (run clampScale (drag down moves) w)))))
  = ((ev_pageX event
      - (ev_pageX (snd down) - fst (pan (state w))))%Q,
     (ev_pageY event
      - (ev_pageY (snd down) - snd (pan (state w))))%Q) /\
  pan (state (fst (step clampScale overlays
                     (Dom TheLookerElement mouseup event)
                     (fst (run clampScale (drag down moves) w)))))
  = ((ev_pageX event
      - (ev_pageX (snd down) - fst (pan (state w))))%Q,
     (ev_pageY event
      - (ev_pageY (snd down) - snd (pan (state w))))%Q).
Proof.
  intros Hthumb.
  assert (Hdrag :
    dragging ((ev_pageX (snd down) - fst (pan (state w)))%Q,
              (ev_pageY (snd down) - snd (pan (state w)))%Q)
             (fst (run clampScale (drag down moves) w))).
  { unfold drag. rewrite run_cons. cbn [fst].
    apply moves_keep_dragging. now apply mousedown_anchors. }
  split; [apply Hdrag|]. split.
  - apply (mousemove_pans _ overlays event _ Hdrag).
  - apply (mouseup_pans _ overlays event _ Hdrag).
Qed.

(** C2.  Pan anchoring.  A drag that starts outside thumbnail mode
    captures at pointer-down the anchor [pagePosition - currentPan]; it is
    still the anchor after any number of pointer moves; and the pan that
    the next pointer-move or pointer-up commits is its page position minus
    that anchor, however many moves came in between.  Concretely, a drag
    that starts at page position (100,100) with pan (0,0) and moves to
    (150,120) commits pan (50,20), and a further move to (100,100) commits
    pan (0,0) again. *)
Theorem pan_is_anchored (down : list Overlay * DomEvent)
  (moves : list (list Overlay * DomEvent)) (overlays : list Overlay)
  (event : DomEvent) (w : World) :
  thumbnail (config (state w)) = false ->
  (start (looker (fst (run clampScale (drag down moves) w)))
   = ((ev_pageX (snd down) - fst (pan (state w)))%Q,
      (ev_pageY (snd down) - snd (pan (state w)))%Q) /\
   pan (state (fst (step clampScale overlays
                      (Dom TheLookerElement mousemove event)
                      (fst (run clampScale (drag down moves) w)))))
   = ((ev_pageX event
       - (ev_pageX (snd down) - fst (pan (state w))))%Q,
      (ev_pageY event
       - (ev_pageY (snd down) - snd (pan (state w))))%Q) /\
   pan (state (fst (step clampScale overlays
                      (Dom TheLookerElement mouseup event)
                      (fst (run clampScale (drag down moves) w)))))
   = ((ev_pageX event
       - (ev_pageX (snd down) - fst (pan (state w))))%Q,
      (ev_pageY event
       - (ev_pageY (snd down) - snd (pan (state w))))%Q)) /\
  (pan (state aWorld) = (0%Q, 0%Q) /\
   pan (state (fst (run clampScale
                      (drag ([], mouseAt 100 100 0)
                            [([], mouseAt 150 120 0)]) aWorld)))
   = (50%Q, 20%Q) /\
   pan (state (fst (run clampScale
                      (drag ([], mouseAt 100 100 0)
                            [([], mouseAt 150 120 0);
                             ([], mouseAt 100 100 0)]) aWorld)))
   = (0%Q, 0%Q)).
Proof.
  intros Hthumb. split.
  - now apply drag_commits_anchored_pan.
  - split; [reflexivity|]. split; vm_compute; reflexivity.
Qed.

End Traces.

(** The drag of the specification, run. *)
Lemma pan_is_anchored_witness :
  thumbnail (config (state aWorld)) = false /\
  start (looker (fst (run clampOneToTen
                        (drag ([], mouseAt 100 100 0) []) aWorld)))
  = ((100 - 0)%Q, (100 - 0)%Q) /\
  pan (state (fst (run clampOneToTen
                     (drag ([], mouseAt 100 100 0)
                           [([], mouseAt 150 120 0)]) aWorld)))
  = (50%Q, 20%Q) /\
  pan (state (fst (run clampOneToTen
                     (drag ([], mouseAt 100 100 0)
                           [([], mouseAt 150 120 0);
                            ([], mouseAt 100 100 0)]) aWorld)))
  = (0%Q, 0%Q).
Proof.
  pose proof (pan_is_anchored clampOneToTen ([], mouseAt 100 100 0) []
                [] (mouseAt 150 120 0) aWorld eq_refl)
    as ((Hstart & _ & _) & _ & Hmove & Hback).
  split; [reflexivity|]. split; [exact Hstart|].
  split; [exact Hmove | exact Hback].
Defined.

Lemma rotate_never_negative_witness :
  0 <= rotate (state aWorld) /\
  rotate (state (fst (step clampOneToTen [anOverlay CONTENT]
                        (Dom TheLookerElement keydown (keyPress "ArrowDown"))
                        aWorld))) = 1 /\
  rotate (state (fst (step clampOneToTen [anOverlay CONTENT]
                        (Dom TheLookerElement keydown (keyPress "ArrowUp"))
                        aWorld))) = 0 /\
  0 <= rotate (state (fst (run clampOneToTen
         [([], Dom TheLookerElement keydown (keyPress "ArrowUp"));
          ([], Dom TheLookerElement keydown (keyPress "ArrowDown"));
          ([], Dom TheLookerElement keydown (keyPress "ArrowUp"));
          ([], Dom TheLookerElement keydown (keyPress "ArrowUp"))]
         aWorld))).
Proof.
  assert (H0 : 0 <= rotate (state aWorld)) by (cbn; lia).
  destruct (rotate_never_negative clampOneToTen aWorld H0)
    as (Hdown & Hup & Hseq).
  split; [exact H0|]. split.
  - exact (Hdown [anOverlay CONTENT] (keyPress "ArrowDown") eq_refl).
  - split.
    + exact (Hup [anOverlay CONTENT] (keyPress "ArrowUp") eq_refl).
    + apply Hseq. reflexivity.
Defined.

(** *** Tooltips *)

Lemma dispatchTooltipEvent_off (s : BaseState) (overlays : list Overlay) :
  showTooltip (options s) = false -> dispatchTooltipEvent s overlays = [].
Proof.
  intros Hoff. unfold dispatchTooltipEvent. rewrite Hoff.
  destruct (playing s && thumbnail (config s)); reflexivity.
Qed.

Section Tooltips.

Variable clampScale : Dimensions -> Dimensions -> Q -> Q.

(** The [tooltip] events of one input whose committed state has
    [showTooltip] off: the canvas's [mouseleave] dispatches one, with
    [null]; nothing else dispatches any. *)
Lemma step_tooltip_events (overlays : list Overlay) (i : Input) (w : World) :
  showTooltip (options (state (fst (step clampScale overlays i w)))) = false ->
  List.filter isTooltip (snd (step clampScale overlays i w))
  = if isCanvasMouseleave i then [dispatchEvent "tooltip" Null] else [].
Proof.
  intros Hoff. revert Hoff. by_cases_on_input i w; intros Hoff;
    rewrite ?dispatchTooltipEvent_off by exact Hoff; try reflexivity.
  destruct overlays; reflexivity.
Qed.

Lemma run_tooltip_events (inputs : list (list Overlay * Input)) (w : World) :
  tooltipOffThroughout clampScale inputs w = true ->
  List.filter isTooltip (snd (run clampScale inputs w))
  = map (fun _ => dispatchEvent "tooltip" Null)
        (List.filter (fun oi => isCanvasMouseleave (snd oi)) inputs).
Proof.
  revert w. induction inputs as [|[overlays i] rest IH]; intros w Hoff.
  - reflexivity.
  - cbn [tooltipOffThroughout] in Hoff.
    apply andb_true_iff in Hoff as [Hnow Hrest].
    apply negb_true_iff in Hnow.
    rewrite run_cons. cbn [snd]. rewrite List.filter_app.
    rewrite step_tooltip_events by exact Hnow.
    rewrite IH by exact Hrest.
    cbn [List.filter snd]. destruct (isCanvasMouseleave i); reflexivity.
Qed.

(** C5, amended.  Over any sequence of inputs (DOM events on any element,
    timer expiries) and any overlay lists, as long as the state each input
    commits has [options.showTooltip] false: the tooltip resolver
    dispatches nothing; the only [tooltip] events are the ones the
    canvas's [mouseleave] handler dispatches, one per such input, each with
    payload [null]; so every [tooltip] event carries [null], and a
    sequence without a canvas [mouseleave] dispatches no [tooltip] event
    at all. *)
Theorem tooltip_suppressed (inputs : list (list Overlay * Input))
  (w : World) :
  tooltipOffThroughout clampScale inputs w = true ->
  List.filter isTooltip (snd (run clampScale inputs w))
  = map (fun _ => dispatchEvent "tooltip" Null)
        (List.filter (fun oi => isCanvasMouseleave (snd oi)) inputs) /\
  (forall e, In e (snd (run clampScale inputs w)) ->
             isTooltip e = true -> e = dispatchEvent "tooltip" Null) /\
  (forallb (fun oi => negb (isCanvasMouseleave (snd oi))) inputs = true ->
   forall e, In e (snd (run clampScale inputs w)) -> isTooltip e = false) /\
  (forall s overlays,
      showTooltip (options s) = false -> dispatchTooltipEvent s overlays = []).
Proof.
  intros Hoff. pose proof (run_tooltip_events inputs w Hoff) as Hevents.
  split; [exact Hevents|]. split; [|split].
  - intros e Hin Htip.
    assert (Hfiltered : In e (List.filter isTooltip
                                (snd (run clampScale inputs w)))).
    { apply filter_In. auto. }
    rewrite Hevents in Hfiltered. apply in_map_iff in Hfiltered.
    destruct Hfiltered as (_ & Heq & _). now symmetry.
  - intros Hnone e Hin. destruct (isTooltip e) eqn:Htip; [|reflexivity].
    assert (Hfiltered : In e (List.filter isTooltip
                                (snd (run clampScale inputs w)))).
    { apply filter_In. auto. }
    rewrite Hevents in Hfiltered. apply in_map_iff in Hfiltered.
    destruct Hfiltered as (oi & _ & Hleave).
    apply filter_In in Hleave as [Hoi Hleave].
    rewrite forallb_forall in Hnone. specialize (Hnone oi Hoi).
    rewrite Hleave in Hnone. discriminate.
  - intros s overlays. apply dispatchTooltipEvent_off.
Qed.

End Tooltips.

(** [showTooltip] is switched off by a click on its row; then the pointer
    moves over the canvas, the wheel zooms in, a key rotates, and the
    settle timer expires: no [tooltip] event. *)
Lemma tooltip_suppressed_witness :
  tooltipOffThroughout clampOneToTen
    [([anOverlay BORDER],
      Dom TheCanvasElement mousemove (mouseAt 10 10 0));
     ([anOverlay BORDER],
      Dom TheLookerElement wheel (mouseAt 10 10 (-1)));
     ([anOverlay BORDER],
      Dom TheLookerElement keydown (keyPress "ArrowDown"));
     ([anOverlay BORDER], Timer 1%positive)]
    (fst (step clampOneToTen []
            (Dom TheShowTooltipOptionElement click (mouseAt 0 0 0)) aWorld))
  = true /\
  List.filter isTooltip
    (snd (run clampOneToTen
       [([anOverlay BORDER],
         Dom TheCanvasElement mousemove (mouseAt 10 10 0));
        ([anOverlay BORDER],
         Dom TheLookerElement wheel (mouseAt 10 10 (-1)));
        ([anOverlay BORDER],
         Dom TheLookerElement keydown (keyPress "ArrowDown"));
        ([anOverlay BORDER], Timer 1%positive)]
       (fst (step clampOneToTen []
               (Dom TheShowTooltipOptionElement click (mouseAt 0 0 0))
               aWorld))))
  = [].
Proof.
  split; [vm_compute; reflexivity|].
  refine (proj1 (tooltip_suppressed clampOneToTen _ _ _)).
  vm_compute. reflexivity.
Defined.

(** C5, as it is stated, fails: with [showTooltip] off, the canvas's
    [mouseleave] handler dispatches a [tooltip] event. *)
Lemma tooltip_dispatched_on_canvas_mouseleave :
  showTooltip
    (options
       (state
          (fst (step clampOneToTen []
                  (Dom TheShowTooltipOptionElement click (mouseAt 0 0 0))
                  aWorld)))) = false /\
  step clampOneToTen [anOverlay BORDER]
    (Dom TheCanvasElement mouseleave (mouseAt 10 10 0))
    (fst (step clampOneToTen []
            (Dom TheShowTooltipOptionElement click (mouseAt 0 0 0)) aWorld))
  = (fst (step clampOneToTen []
            (Dom TheShowTooltipOptionElement click (mouseAt 0 0 0)) aWorld),
     [dispatchEvent "tooltip" Null]).
Proof.
  split; reflexivity.
Qed.


(** What the tooltip resolver dispatches.  When it runs with [showTooltip]
    true and not in the playing-thumbnail case it dispatches exactly one
    [tooltip] event.  If the first overlay of the list reports a
    containment other than [NONE], the payload is that overlay's
    [PointInfo] with the state's cursor coordinates, and with the state's
    frame number when [state.frameNumber] is truthy; if the list is empty
    or its first overlay reports [NONE], the payload is [null]. *)
Theorem tooltip_payload (s : BaseState) (overlays : list Overlay) :
  showTooltip (options s) = true ->
  playing s && thumbnail (config s) = false ->
  (forall o rest,
      overlays = o :: rest -> containsPoint o s <> NONE ->
      dispatchTooltipEvent s overlays
      = [dispatchEvent "tooltip"
           (TooltipInfo {| td_info := getPointInfo o s;
                           td_frameNumber := tooltipFrameNumber s;
                           td_coordinates := cursorCoordinates s |})]) /\
  (overlays = [] ->
   dispatchTooltipEvent s overlays = [dispatchEvent "tooltip" Null]) /\
  (forall o rest,
      overlays = o :: rest -> containsPoint o s = NONE ->
      dispatchTooltipEvent s overlays = [dispatchEvent "tooltip" Null]) /\
  (forall n, frameNumber s = Some n -> n <> 0 ->
             tooltipFrameNumber s = Some n) /\
  (frameNumber s = None \/ frameNumber s = Some 0 ->
   tooltipFrameNumber s = None).
Proof.
  intros Hshow Hlive. unfold dispatchTooltipEvent, tooltipFrameNumber.
  rewrite Hshow, Hlive. cbn [negb]. repeat split.
  - intros o rest -> Hin. destruct (containsPoint o s);
      [contradiction | reflexivity | reflexivity].
  - intros ->. reflexivity.
  - intros o rest -> Hout. rewrite Hout. reflexivity.
  - intros n -> Hn. apply Z.eqb_neq in Hn. now rewrite Hn.
  - intros [-> | ->]; reflexivity.
Qed.

Lemma tooltip_payload_witness :
  showTooltip (options (atFrame (Some 7) aState)) = true /\
  playing (atFrame (Some 7) aState)
    && thumbnail (config (atFrame (Some 7) aState)) = false /\
  dispatchTooltipEvent (atFrame (Some 7) aState)
    [anOverlay CONTENT; anOverlay NONE]
  = [dispatchEvent "tooltip"
       (TooltipInfo
          {| td_info := getPointInfo (anOverlay CONTENT)
                          (atFrame (Some 7) aState);
             td_frameNumber := Some 7;
             td_coordinates := (0%Q, 0%Q) |})] /\
  dispatchTooltipEvent (atFrame (Some 7) aState)
    [anOverlay NONE; anOverlay BORDER]
  = [dispatchEvent "tooltip" Null].
Proof.
  destruct (tooltip_payload (atFrame (Some 7) aState)
              [anOverlay CONTENT; anOverlay NONE] eq_refl eq_refl)
    as (Hin & _).
  destruct (tooltip_payload (atFrame (Some 7) aState)
              [anOverlay NONE; anOverlay BORDER] eq_refl eq_refl)
    as (_ & _ & Hout & _).
  split; [reflexivity|]. split; [reflexivity|]. split.
  - apply (Hin (anOverlay CONTENT) [anOverlay NONE] eq_refl). discriminate.
  - apply (Hout (anOverlay NONE) [anOverlay BORDER] eq_refl). reflexivity.
Defined.

(** * Further properties of [elements/common.ts] *)

(** ** The two debounced timers *)

(** Closes a goal about the timer table after the lookups are split: it
    turns pending entries into handles and handles into pending entries
    that are older than the next handle. *)
Ltac timers_finish Hlt Hhide Hwheel :=
  repeat match goal with
         | H : timers _ !! _ = Some HideControlsTask |- _ =>
             apply Hhide in H
         | H : timers _ !! _ = Some WheelSettleTask |- _ =>
             apply Hwheel in H
         | H : timers _ !! _ = Some ?task |- _ =>
             destruct task
         end;
  try congruence;
  repeat match goal with
         | H : hideControlsTimeout _ = Some _ |- _ =>
             apply Hhide in H; pose proof (Hlt _ _ H); revert H
         | H : wheelTimeout _ = Some _ |- _ =>
             apply Hwheel in H; pose proof (Hlt _ _ H); revert H
         end;
  intros; first [done | lia | congruence].

Lemma fresh_timersCoherent (s : BaseState) (c : Coordinates) (n : positive) :
  timersCoherent
    {| state := s;
       looker := {| hideControlsTimeout := None; start := c;
                    wheelTimeout := None |};
       timers := ∅;
       nextTimer := n |}.
Proof.
  unfold timersCoherent. cbn. repeat split; intros *;
    rewrite ?lookup_empty; congruence.
Qed.

Section Timers.

Variable clampScale : Dimensions -> Dimensions -> Q -> Q.

Lemma step_timersCoherent (overlays : list Overlay) (i : Input) (w : World) :
  timersCoherent w -> timersCoherent (fst (step clampScale overlays i w)).
Proof.
  intros Hco. revert Hco. by_cases_on_input i w; try (intros H; exact H).
  all: unfold timersCoherent; cbn; intros (Hlt & Hhide & Hwheel).
  all: repeat split; intros *; rewrite ?lookup_insert, ?lookup_delete;
    repeat case_decide; intros; simplify_eq;
    try timers_finish Hlt Hhide Hwheel.
Qed.

Lemma run_timersCoherent (inputs : list (list Overlay * Input)) (w : World) :
  timersCoherent w -> timersCoherent (fst (run clampScale inputs w)).
Proof.
  revert w. induction inputs as [|[overlays i] rest IH]; intros w Hco.
  - exact Hco.
  - rewrite run_cons. cbn [fst]. apply IH. now apply step_timersCoherent.
Qed.

(** X1.  At most one pending timer of each kind.  From a world whose
    timers are coherent (a viewer that has scheduled nothing is), every
    sequence of DOM events and timer expiries leaves the timers coherent:
    two pending timers with the same task are the same timer, and it is
    the one whose handle the looker holds. *)
Theorem one_pending_timer_per_kind (inputs : list (list Overlay * Input))
  (w : World) :
  timersCoherent w ->
  timersCoherent (fst (run clampScale inputs w)) /\
  (forall h1 h2 task,
      timers (fst (run clampScale inputs w)) !! h1 = Some task ->
      timers (fst (run clampScale inputs w)) !! h2 = Some task ->
      h1 = h2) /\
  (forall h,
      timers (fst (run clampScale inputs w)) !! h = Some HideControlsTask ->
      hideControlsTimeout (looker (fst (run clampScale inputs w))) = Some h) /\
  (forall h,
      timers (fst (run clampScale inputs w)) !! h = Some WheelSettleTask ->
      wheelTimeout (looker (fst (run clampScale inputs w))) = Some h).
Proof.
  intros Hco. pose proof (run_timersCoherent inputs w Hco) as Hrun.
  split; [exact Hrun|]. destruct Hrun as (_ & Hhide & Hwheel).
  split; [|split].
  - intros h1 h2 [] H1 H2.
    + apply Hhide in H1, H2. congruence.
    + apply Hwheel in H1, H2. congruence.
  - intros h. apply Hhide.
  - intros h. apply Hwheel.
Qed.

(** What a pointer move over the looker does to the timers. *)
Lemma mousemove_schedules (overlays : list Overlay) (event : DomEvent)
  (w : World) :
  hideControlsTimeout
    (looker (fst (step clampScale overlays
                    (Dom TheLookerElement mousemove event) w)))
  = Some (nextTimer w) /\
  timers (fst (step clampScale overlays
                 (Dom TheLookerElement mousemove event) w))
  = <[nextTimer w := HideControlsTask]>
      (match hideControlsTimeout (looker w) with
       | Some h => base.delete h (timers w)
       | None => timers w
       end) /\
  wheelTimeout
    (looker (fst (step clampScale overlays
                    (Dom TheLookerElement mousemove event) w)))
  = wheelTimeout (looker w) /\
  showOptions
    (state (fst (step clampScale overlays
                   (Dom TheLookerElement mousemove event) w)))
  = showOptions (state w) /\
  showControls
    (state (fst (step clampScale overlays
                   (Dom TheLookerElement mousemove event) w)))
  = showControls (state w).
Proof.
  cbn [step getEvents LookerElement_getEvents].
  unfold LookerElement_mousemove. run_handler.
  destruct (hideControlsTimeout (looker w)); cbn;
    destruct (thumbnail (config (state w)) || negb (panning (state w)));
    cbn; [destruct (rotate (state w) =? 0)| |
          destruct (rotate (state w) =? 0)|]; cbn; auto.
Qed.

End Timers.

Section Debounce.

Variable clampScale : Dimensions -> Dimensions -> Q -> Q.

Lemma moves_keep_wheelTimeout (moves : list (list Overlay * DomEvent))
  (w : World) :
  wheelTimeout (looker (fst (run clampScale (map lookerMove moves) w)))
  = wheelTimeout (looker w).
Proof.
  revert w. induction moves as [|[overlays event] rest IH]; intros w.
  - reflexivity.
  - change (map lookerMove ((overlays, event) :: rest))
      with ((overlays, Dom TheLookerElement mousemove event)
            :: map lookerMove rest).
    rewrite run_cons. cbn [fst]. rewrite IH.
    apply mousemove_schedules.
Qed.

Lemma moves_hold_a_handle (moves : list (list Overlay * DomEvent))
  (w : World) :
  is_Some (hideControlsTimeout (looker w)) ->
  is_Some (hideControlsTimeout
             (looker (fst (run clampScale (map lookerMove moves) w)))).
Proof.
  revert w. induction moves as [|[overlays event] rest IH]; intros w Hsome.
  - exact Hsome.
  - change (map lookerMove ((overlays, event) :: rest))
      with ((overlays, Dom TheLookerElement mousemove event)
            :: map lookerMove rest).
    rewrite run_cons. cbn [fst]. apply IH.
    destruct (mousemove_schedules clampScale overlays event w) as (-> & _).
    eauto.
Qed.

(** X2.  Debounce coalescing.  In a viewer whose timers are coherent and
    that has no wheel-settle timer pending, any number of pointer moves
    over the looker, one or more, leave exactly one pending timer: the
    table of pending timers is the single hide-controls timer whose handle
    is in [this.hideControlsTimeout]. *)
Theorem moves_leave_one_timer (first : list Overlay * DomEvent)
  (more : list (list Overlay * DomEvent)) (w : World) :
  timersCoherent w ->
  wheelTimeout (looker w) = None ->
  exists h,
    hideControlsTimeout
      (looker (fst (run clampScale (map lookerMove (first :: more)) w)))
    = Some h /\
    timers (fst (run clampScale (map lookerMove (first :: more)) w))
    = {[ h := HideControlsTask ]}.
Proof.
  intros Hco Hnowheel.
  pose proof (run_timersCoherent clampScale
                (map lookerMove (first :: more)) w Hco)
    as (_ & Hhide & Hwheel).
  pose proof (moves_keep_wheelTimeout (first :: more) w) as Hsame.
  rewrite Hnowheel in Hsame.
  assert (Hsome : is_Some
            (hideControlsTimeout
               (looker (fst (run clampScale
                               (map lookerMove (first :: more)) w))))).
  { destruct first as [overlays event].
    change (map lookerMove ((overlays, event) :: more))
      with ((overlays, Dom TheLookerElement mousemove event)
            :: map lookerMove more).
    rewrite run_cons. cbn [fst]. apply moves_hold_a_handle.
    destruct (mousemove_schedules clampScale overlays event w) as (-> & _).
    eauto. }
  destruct Hsome as [h Hh]. exists h. split; [exact Hh|].
  apply map_eq. intros k.
  destruct (decide (k = h)) as [->|Hne].
  - rewrite lookup_singleton_eq. now apply Hhide.
  - rewrite lookup_singleton_ne by congruence.
    destruct (timers _ !! k) as [[]|] eqn:Hk; [| |reflexivity].
    + apply Hhide in Hk. congruence.
    + apply Hwheel in Hk. congruence.
Qed.

(** X3.  Controls auto-hide.  When the timer that a pointer move over the
    looker scheduled expires, [showControls] becomes false unless the
    options panel is open, in which case the state is left as it was;
    either way no other field changes, the handle is cleared, the timer is
    no longer pending and nothing is dispatched. *)
Theorem controls_auto_hide (overlays later : list Overlay)
  (event : DomEvent) (w : World) :
  showControls
    (state (fst (run clampScale
                   [(overlays, Dom TheLookerElement mousemove event);
                    (later, Timer (nextTimer w))] w)))
  = showOptions (state w) && showControls (state w) /\
  state (fst (run clampScale
                [(overlays, Dom TheLookerElement mousemove event);
                 (later, Timer (nextTimer w))] w))
  = mergeUpdates
      (state (fst (step clampScale overlays
                     (Dom TheLookerElement mousemove event) w)))
      (if showOptions (state w) then [] else [Set_showControls false]) /\
  hideControlsTimeout
    (looker (fst (run clampScale
                    [(overlays, Dom TheLookerElement mousemove event);
                     (later, Timer (nextTimer w))] w)))
  = None /\
  timers (fst (run clampScale
                 [(overlays, Dom TheLookerElement mousemove event);
                  (later, Timer (nextTimer w))] w)) !! nextTimer w
  = None /\
  snd (run clampScale
         [(overlays, Dom TheLookerElement mousemove event);
          (later, Timer (nextTimer w))] w)
  = [].
Proof.
  rewrite !run_cons. cbn [run fst snd].
  destruct (mousemove_schedules clampScale overlays event w)
    as (Hhandle & Htimers & _ & Hoptions & Hcontrols).
  set (w1 := fst (step clampScale overlays
                    (Dom TheLookerElement mousemove event) w)) in *.
  assert (Hfx : snd (step clampScale overlays
                       (Dom TheLookerElement mousemove event) w) = []).
  { cbn [step getEvents LookerElement_getEvents].
    unfold LookerElement_mousemove. run_handler.
    destruct (hideControlsTimeout (looker w)); cbn;
      destruct (thumbnail (config (state w)) || negb (panning (state w)));
      cbn; [destruct (rotate (state w) =? 0)| |
            destruct (rotate (state w) =? 0)|]; reflexivity. }
  rewrite Hfx. cbn [step]. unfold fireTimer, exec.
  rewrite Htimers, lookup_insert_eq.
  unfold hideControlsCallback. run_handler.
  rewrite Hoptions.
  destruct (showOptions (state w)); cbn; rewrite lookup_delete_eq.
  - rewrite mergeUpdates_nil. auto.
  - auto.
Qed.

(** X4.  A cancelled timer is dead.  When a pointer move over the looker
    replaces a pending hide-controls timer, the expiry of the old handle
    does nothing: the world is unchanged and nothing is dispatched. *)
Theorem cancelled_timer_does_nothing (overlays later : list Overlay)
  (event : DomEvent) (old : positive) (w : World) :
  timersCoherent w ->
  hideControlsTimeout (looker w) = Some old ->
  step clampScale later (Timer old)
    (fst (step clampScale overlays (Dom TheLookerElement mousemove event) w))
  = (fst (step clampScale overlays
            (Dom TheLookerElement mousemove event) w), []).
Proof.
  intros (Hlt & Hhide & _) Hold.
  destruct (mousemove_schedules clampScale overlays event w)
    as (_ & Htimers & _).
  set (w1 := fst (step clampScale overlays
                    (Dom TheLookerElement mousemove event) w)) in *.
  cbn [step]. unfold fireTimer, exec. rewrite Htimers, Hold.
  pose proof (Hlt _ _ (proj2 (Hhide old) Hold)) as Holder.
  rewrite lookup_insert_ne by lia. rewrite lookup_delete_eq. reflexivity.
Qed.

End Debounce.

Lemma one_pending_timer_per_kind_witness :
  timersCoherent aWorld /\
  timersCoherent
    (fst (run clampOneToTen
            [([], Dom TheLookerElement mousemove (mouseAt 10 10 0));
             ([], Dom TheLookerElement wheel (mouseAt 10 10 (-1)));
             ([], Dom TheLookerElement mousemove (mouseAt 11 10 0));
             ([], Dom TheLookerElement wheel (mouseAt 11 10 (-1)))]
            aWorld)) /\
  map_to_list
    (timers
       (fst (run clampOneToTen
               [([], Dom TheLookerElement mousemove (mouseAt 10 10 0));
                ([], Dom TheLookerElement wheel (mouseAt 10 10 (-1)));
                ([], Dom TheLookerElement mousemove (mouseAt 11 10 0));
                ([], Dom TheLookerElement wheel (mouseAt 11 10 (-1)))]
               aWorld)))
  = [(3%positive, HideControlsTask); (4%positive, WheelSettleTask)].
Proof.
  assert (Hfresh : timersCoherent aWorld) by apply fresh_timersCoherent.
  split; [exact Hfresh|]. split.
  - exact (proj1 (one_pending_timer_per_kind clampOneToTen _ aWorld Hfresh)).
  - vm_compute. reflexivity.
Defined.

Lemma moves_leave_one_timer_witness :
  timersCoherent aWorld /\
  wheelTimeout (looker aWorld) = None /\
  timers
    (fst (run clampOneToTen
            (map lookerMove
               [([], mouseAt 10 10 0); ([], mouseAt 11 10 0);
                ([], mouseAt 12 10 0); ([], mouseAt 13 10 0)])
            aWorld))
  = {[ 4%positive := HideControlsTask ]}.
Proof.
  assert (Hfresh : timersCoherent aWorld) by apply fresh_timersCoherent.
  split; [exact Hfresh|]. split; [reflexivity|].
  destruct (moves_leave_one_timer clampOneToTen ([], mouseAt 10 10 0)
              [([], mouseAt 11 10 0); ([], mouseAt 12 10 0);
               ([], mouseAt 13 10 0)] aWorld Hfresh eq_refl)
    as (h & Hh & Htimers).
  rewrite Htimers. f_equal.
  assert (Hcomputed :
    hideControlsTimeout
      (looker (fst (run clampOneToTen
                      (map lookerMove
                         [([], mouseAt 10 10 0); ([], mouseAt 11 10 0);
                          ([], mouseAt 12 10 0); ([], mouseAt 13 10 0)])
                      aWorld)))
    = Some 4%positive) by (vm_compute; reflexivity).
  congruence.
Defined.

Lemma cancelled_timer_does_nothing_witness :
  timersCoherent
    (fst (step clampOneToTen []
            (Dom TheLookerElement mousemove (mouseAt 10 10 0)) aWorld)) /\
  hideControlsTimeout
    (looker (fst (step clampOneToTen []
                    (Dom TheLookerElement mousemove (mouseAt 10 10 0))
                    aWorld)))
  = Some 1%positive /\
  snd (step clampOneToTen [] (Timer 1%positive)
         (fst (run clampOneToTen
                 [([], Dom TheLookerElement mousemove (mouseAt 10 10 0));
                  ([], Dom TheLookerElement mousemove (mouseAt 11 10 0))]
                 aWorld)))
  = [].
Proof.
  assert (Hone : timersCoherent
            (fst (step clampOneToTen []
                    (Dom TheLookerElement mousemove (mouseAt 10 10 0))
                    aWorld))).
  { apply step_timersCoherent, fresh_timersCoherent. }
  split; [exact Hone|]. split; [reflexivity|].
  rewrite run_cons. cbn [fst run].
  pose proof (cancelled_timer_does_nothing clampOneToTen [] []
                (mouseAt 11 10 0) 1%positive _ Hone eq_refl) as Hdead.
  destruct (step clampOneToTen []
              (Dom TheLookerElement mousemove (mouseAt 11 10 0))
              (fst (step clampOneToTen []
                      (Dom TheLookerElement mousemove (mouseAt 10 10 0))
                      aWorld))) as [w2 fx2] eqn:Hstep.
  cbn [fst] in *. rewrite Hdead. reflexivity.
Defined.

(** ** The wheel-settle timer *)

Section Settle.

Variable clampScale : Dimensions -> Dimensions -> Q -> Q.

(** X5.  Wheel settling.  A wheel event that changes the scale sets
    [wheeling] and leaves one wheel-settle timer pending under the handle
    in [this.wheelTimeout]; when that timer expires [wheeling] is false
    again, the handle is cleared, the timer is gone, and nothing else of
    the state (pan and scale among it) has changed. *)
Theorem wheel_settles (overlays later : list Overlay) (event : DomEvent)
  (w : World) :
  thumbnail (config (state w)) = false ->
  Qeq_bool (scale (state w)) (clampedScale clampScale (state w) event)
    = false ->
  wheeling (state (fst (step clampScale overlays
                          (Dom TheLookerElement wheel event) w))) = true /\
  wheelTimeout (looker (fst (step clampScale overlays
                               (Dom TheLookerElement wheel event) w)))
  = Some (nextTimer w) /\
  timers (fst (step clampScale overlays
                 (Dom TheLookerElement wheel event) w)) !! nextTimer w
  = Some WheelSettleTask /\
  state (fst (run clampScale
                [(overlays, Dom TheLookerElement wheel event);
                 (later, Timer (nextTimer w))] w))
  = mergeUpdates
      (state (fst (step clampScale overlays
                     (Dom TheLookerElement wheel event) w)))
      [Set_wheeling false] /\
  wheelTimeout
    (looker (fst (run clampScale
                    [(overlays, Dom TheLookerElement wheel event);
                     (later, Timer (nextTimer w))] w)))
  = None /\
  timers (fst (run clampScale
                 [(overlays, Dom TheLookerElement wheel event);
                  (later, Timer (nextTimer w))] w)) !! nextTimer w
  = None.
Proof.
  intros Hthumb Hdiff.
  assert (Hstep :
    wheeling (state (fst (step clampScale overlays
                            (Dom TheLookerElement wheel event) w))) = true /\
    wheelTimeout (looker (fst (step clampScale overlays
                                 (Dom TheLookerElement wheel event) w)))
    = Some (nextTimer w) /\
    timers (fst (step clampScale overlays
                   (Dom TheLookerElement wheel event) w))
    = <[nextTimer w := WheelSettleTask]>
        (match wheelTimeout (looker w) with
         | Some h => base.delete h (timers w)
         | None => timers w
         end)).
  { cbn [step getEvents LookerElement_getEvents].
    unfold LookerElement_wheel, clampedScale, requestedScale in *.
    run_handler.
    destruct (pan (state w)) as [px py].
    destruct (windowBBox (state w)) as [[[tlx tly] width] height].
    rewrite Hthumb. cbn. rewrite Hdiff. cbn.
    destruct (wheelTimeout (looker w)); cbn; auto. }
  destruct Hstep as (Hwheeling & Hhandle & Htimers).
  rewrite !run_cons. cbn [run fst snd].
  set (w1 := fst (step clampScale overlays
                    (Dom TheLookerElement wheel event) w)) in *.
  split; [exact Hwheeling|]. split; [exact Hhandle|].
  split; [rewrite Htimers; apply lookup_insert_eq|].
  cbn [step]. unfold fireTimer, exec.
  rewrite Htimers, lookup_insert_eq.
  unfold wheelSettleCallback. run_handler.
  rewrite lookup_delete_eq. auto.
Qed.

End Settle.

Lemma wheel_settles_witness :
  thumbnail (config (state aWorld)) = false /\
  Qeq_bool (scale (state aWorld))
    (clampedScale clampOneToTen (state aWorld) (mouseAt 400 300 (-100)))
  = false /\
  wheeling
    (state (fst (step clampOneToTen []
                   (Dom TheLookerElement wheel (mouseAt 400 300 (-100)))
                   aWorld))) = true /\
  wheeling
    (state (fst (run clampOneToTen
                   [([], Dom TheLookerElement wheel (mouseAt 400 300 (-100)));
                    ([], Timer 1%positive)] aWorld))) = false.
Proof.
  destruct (wheel_settles clampOneToTen [] [] (mouseAt 400 300 (-100))
              aWorld eq_refl eq_refl)
    as (Hon & _ & _ & Hoff & _).
  split; [reflexivity|]. split; [reflexivity|]. split; [exact Hon|].
  change (nextTimer aWorld) with 1%positive in Hoff.
  rewrite Hoff. reflexivity.
Defined.

(** ** What the handlers leave alone *)

Section Frames.

Variable clampScale : Dimensions -> Dimensions -> Q -> Q.

Lemma step_thumbnail_frozen (overlays : list Overlay) (i : Input)
  (w : World) :
  thumbnail (config (state w)) = true ->
  config (state (fst (step clampScale overlays i w))) = config (state w) /\
  pan (state (fst (step clampScale overlays i w))) = pan (state w) /\
  scale (state (fst (step clampScale overlays i w))) = scale (state w) /\
  canZoom (state (fst (step clampScale overlays i w))) = canZoom (state w) /\
  cursorCoordinates (state (fst (step clampScale overlays i w)))
  = cursorCoordinates (state w) /\
  (panning (state w) = false ->
   panning (state (fst (step clampScale overlays i w))) = false) /\
  (showControls (state w) = false ->
   showControls (state (fst (step clampScale overlays i w))) = false).
Proof.
  intros Hthumb. by_cases_on_input i w;
    rewrite ?Hthumb in *; cbn in *; try discriminate; auto 10.
Qed.

(** X6.  A thumbnail never pans or zooms.  In thumbnail mode no sequence
    of DOM events and timer expiries changes [pan], [scale], [canZoom] or
    [cursorCoordinates]; the viewer stays a thumbnail, a drag never
    starts, and the controls are never revealed. *)
Theorem thumbnail_is_frozen (inputs : list (list Overlay * Input))
  (w : World) :
  thumbnail (config (state w)) = true ->
  config (state (fst (run clampScale inputs w))) = config (state w) /\
  pan (state (fst (run clampScale inputs w))) = pan (state w) /\
  scale (state (fst (run clampScale inputs w))) = scale (state w) /\
  canZoom (state (fst (run clampScale inputs w))) = canZoom (state w) /\
  cursorCoordinates (state (fst (run clampScale inputs w)))
  = cursorCoordinates (state w) /\
  (panning (state w) = false ->
   panning (state (fst (run clampScale inputs w))) = false) /\
  (showControls (state w) = false ->
   showControls (state (fst (run clampScale inputs w))) = false).
Proof.
  revert w. induction inputs as [|[overlays i] rest IH]; intros w Hthumb.
  - auto 10.
  - rewrite run_cons. cbn [fst].
    destruct (step_thumbnail_frozen overlays i w Hthumb)
      as (Hc & Hp & Hs & Hz & Hcur & Hpan & Hctl).
    destruct (IH (fst (step clampScale overlays i w)))
      as (Hc' & Hp' & Hs' & Hz' & Hcur' & Hpan' & Hctl').
    { now rewrite Hc. }
    repeat split; try congruence; auto.
Qed.

Lemma step_scale_invariant (P : Q -> Prop) (overlays : list Overlay)
  (i : Input) (w : World) :
  P 1%Q ->
  (forall windowSize mediaSize candidate,
      P (clampScale windowSize mediaSize candidate)) ->
  P (scale (state w)) ->
  P (scale (state (fst (step clampScale overlays i w)))).
Proof.
  intros Hone Hclamp Hscale. by_cases_on_input i w;
    first [exact Hscale | exact Hone | apply Hclamp].
Qed.

(** X7.  The scale is what [clampScale] allows.  Whatever property every
    result of [clampScale] has, the scale has it after any sequence of
    inputs, provided the scale had it at the start and 1 has it too: the
    committed scale only ever comes from [clampScale] (wheel) or is the
    constant 1 (double click). *)
Theorem scale_is_clamped_or_one (P : Q -> Prop)
  (inputs : list (list Overlay * Input)) (w : World) :
  P 1%Q ->
  (forall windowSize mediaSize candidate,
      P (clampScale windowSize mediaSize candidate)) ->
  P (scale (state w)) ->
  P (scale (state (fst (run clampScale inputs w)))).
Proof.
  intros Hone Hclamp. revert w.
  induction inputs as [|[overlays i] rest IH]; intros w Hscale.
  - exact Hscale.
  - rewrite run_cons. cbn [fst]. apply IH.
    now apply step_scale_invariant.
Qed.

Lemma step_without_drag (overlays : list Overlay) (i : Input) (w : World) :
  panning (state w) = false ->
  startsPanOrZoom i = false ->
  pan (state (fst (step clampScale overlays i w))) = pan (state w) /\
  scale (state (fst (step clampScale overlays i w))) = scale (state w) /\
  panning (state (fst (step clampScale overlays i w))) = false.
Proof.
  intros Hpanning Hnot. revert Hnot. by_cases_on_input i w;
    rewrite ?Hpanning in *; cbn in *; try discriminate; auto;
    rewrite ?orb_true_r in *; discriminate.
Qed.

Lemma run_without_drag (inputs : list (list Overlay * Input)) (w : World) :
  panning (state w) = false ->
  forallb (fun oi => negb (startsPanOrZoom (snd oi))) inputs = true ->
  pan (state (fst (run clampScale inputs w))) = pan (state w) /\
  scale (state (fst (run clampScale inputs w))) = scale (state w) /\
  panning (state (fst (run clampScale inputs w))) = false.
Proof.
  revert w. induction inputs as [|[overlays i] rest IH]; intros w Hp Hall.
  - auto.
  - cbn [forallb snd] in Hall. apply andb_true_iff in Hall as [Hi Hrest].
    apply negb_true_iff in Hi.
    rewrite run_cons. cbn [fst].
    destruct (step_without_drag overlays i w Hp Hi) as (Hpan & Hscale & Hp1).
    destruct (IH _ Hp1 Hrest) as (Hpan' & Hscale' & Hp').
    repeat split; congruence.
Qed.

(** X8.  A drag ends when the pointer leaves or is released.  After the
    looker's [mouseleave], in whatever state it arrives, and after its
    [mouseup] outside thumbnail mode, [panning] is false; from then on no
    sequence of inputs without a new pointer-down, wheel or double click
    on the looker changes [pan] or [scale]: pointer moves no longer pan. *)
Theorem drag_ends (overlays : list Overlay) (event : DomEvent)
  (inputs : list (list Overlay * Input)) (w : World) :
  forallb (fun oi => negb (startsPanOrZoom (snd oi))) inputs = true ->
  (pan (state (fst (run clampScale
                      ((overlays, Dom TheLookerElement mouseleave event)
                       :: inputs) w)))
   = pan (state w) /\
   scale (state (fst (run clampScale
                        ((overlays, Dom TheLookerElement mouseleave event)
                         :: inputs) w)))
   = scale (state w) /\
   panning (state (fst (run clampScale
                          ((overlays, Dom TheLookerElement mouseleave event)
                           :: inputs) w)))
   = false) /\
  (thumbnail (config (state w)) = false ->
   pan (state (fst (run clampScale
                      ((overlays, Dom TheLookerElement mouseup event)
                       :: inputs) w)))
   = pan (state (fst (step clampScale overlays
                        (Dom TheLookerElement mouseup event) w))) /\
   panning (state (fst (run clampScale
                          ((overlays, Dom TheLookerElement mouseup event)
                           :: inputs) w)))
   = false).
Proof.
  intros Hall. split.
  - rewrite run_cons. cbn [fst].
    assert (Hleave :
      panning (state (fst (step clampScale overlays
                             (Dom TheLookerElement mouseleave event) w)))
      = false /\
      pan (state (fst (step clampScale overlays
                         (Dom TheLookerElement mouseleave event) w)))
      = pan (state w) /\
      scale (state (fst (step clampScale overlays
                           (Dom TheLookerElement mouseleave event) w)))
      = scale (state w)) by (cbn; auto).
    destruct Hleave as (Hp & Hpan & Hscale).
    destruct (run_without_drag inputs _ Hp Hall) as (Hpan' & Hscale' & Hp').
    repeat split; congruence.
  - intros Hthumb. rewrite run_cons. cbn [fst].
    assert (Hup :
      panning (state (fst (step clampScale overlays
                             (Dom TheLookerElement mouseup event) w)))
      = false).
    { cbn [step getEvents LookerElement_getEvents].
      unfold LookerElement_mouseup. run_handler. rewrite Hthumb. cbn.
      destruct (panning (state w)) eqn:Hp; cbn; auto. }
    destruct (run_without_drag inputs _ Hup Hall) as (Hpan' & _ & Hp').
    split; assumption.
Qed.

(** X9.  What moves [rotate].  For every input of every element:
    [ArrowDown] on the looker adds one, [ArrowUp] subtracts one down to
    zero, a pointer move over the looker resets it to zero (in thumbnail
    mode and during a drag as well), and every other handler and timer
    leaves it as it is. *)
Theorem rotate_dynamics (overlays : list Overlay) (i : Input) (w : World) :
  rotate (state (fst (step clampScale overlays i w)))
  = rotateAfter i (rotate (state w)).
Proof.
  by_cases_on_input i w; try reflexivity;
    match goal with
    | H : (rotate (state w) =? 0) = true |- _ =>
        apply Z.eqb_eq in H; exact H
    end.
Qed.

End Frames.

Lemma clampOneToTen_bounds (windowSize mediaSize : Dimensions)
  (candidate : Q) :
  (1 <= clampOneToTen windowSize mediaSize candidate <= 10)%Q.
Proof.
  unfold clampOneToTen. split.
  - apply Q.le_max_l.
  - apply Q.max_lub; [discriminate | apply Q.le_min_r].
Qed.

Lemma thumbnail_is_frozen_witness :
  thumbnail (config (state aThumbnail)) = true /\
  pan (state (fst (run clampOneToTen
                     [([], Dom TheLookerElement mouseenter (mouseAt 5 5 0));
                      ([], Dom TheLookerElement mousedown (mouseAt 5 5 0));
                      ([], Dom TheLookerElement mousemove (mouseAt 50 60 0));
                      ([], Dom TheLookerElement wheel (mouseAt 50 60 (-3)));
                      ([], Dom TheLookerElement mouseup (mouseAt 50 60 0))]
                     aThumbnail)))
  = (0%Q, 0%Q) /\
  scale (state (fst (run clampOneToTen
                       [([], Dom TheLookerElement mouseenter (mouseAt 5 5 0));
                        ([], Dom TheLookerElement mousedown (mouseAt 5 5 0));
                        ([], Dom TheLookerElement mousemove (mouseAt 50 60 0));
                        ([], Dom TheLookerElement wheel (mouseAt 50 60 (-3)));
                        ([], Dom TheLookerElement mouseup (mouseAt 50 60 0))]
                       aThumbnail)))
  = 1%Q.
Proof.
  destruct (thumbnail_is_frozen clampOneToTen
              [([], Dom TheLookerElement mouseenter (mouseAt 5 5 0));
               ([], Dom TheLookerElement mousedown (mouseAt 5 5 0));
               ([], Dom TheLookerElement mousemove (mouseAt 50 60 0));
               ([], Dom TheLookerElement wheel (mouseAt 50 60 (-3)));
               ([], Dom TheLookerElement mouseup (mouseAt 50 60 0))]
              aThumbnail eq_refl) as (_ & Hpan & Hscale & _).
  split; [reflexivity|]. split; [exact Hpan | exact Hscale].
Defined.

Lemma scale_is_clamped_or_one_witness :
  (1 <= 1 <= 10)%Q /\
  (1 <= scale (state aWorld) <= 10)%Q /\
  (1 <= scale (state (fst (run clampOneToTen
                             [([], Dom TheLookerElement wheel
                                     (mouseAt 400 300 (-100)));
                              ([], Dom TheLookerElement wheel
                                     (mouseAt 400 300 (-100)));
                              ([], Dom TheLookerElement dblclick
                                     (mouseAt 400 300 0));
                              ([], Dom TheLookerElement wheel
                                     (mouseAt 10 10 100))]
                             aWorld))) <= 10)%Q.
Proof.
  assert (Hone : (1 <= 1 <= 10)%Q) by (split; discriminate).
  split; [exact Hone|]. split; [exact Hone|].
  apply (scale_is_clamped_or_one clampOneToTen
           (fun q => (1 <= q <= 10)%Q)).
  - exact Hone.
  - apply clampOneToTen_bounds.
  - exact Hone.
Defined.

Lemma drag_ends_witness :
  forallb (fun oi : list Overlay * Input => negb (startsPanOrZoom (snd oi)))
    [([], Dom TheLookerElement mousemove (mouseAt 300 300 0));
     ([], Dom TheLookerElement mouseup (mouseAt 300 300 0));
     ([], Dom TheCanvasElement mousemove (mouseAt 310 300 0))] = true /\
  panning
    (state (fst (run clampOneToTen
                   (drag ([], mouseAt 100 100 0) [([], mouseAt 150 120 0)])
                   aWorld))) = true /\
  pan (state (fst (run clampOneToTen
                     (([], Dom TheLookerElement mouseleave (mouseAt 0 0 0))
                      :: [([], Dom TheLookerElement mousemove
                                 (mouseAt 300 300 0));
                          ([], Dom TheLookerElement mouseup
                                 (mouseAt 300 300 0));
                          ([], Dom TheCanvasElement mousemove
                                 (mouseAt 310 300 0))])
                     (fst (run clampOneToTen
                             (drag ([], mouseAt 100 100 0)
                                   [([], mouseAt 150 120 0)])
                             aWorld)))))
  = (50%Q, 20%Q).
Proof.
  split; [reflexivity|]. split; [reflexivity|].
  destruct (drag_ends clampOneToTen [] (mouseAt 0 0 0)
              [([], Dom TheLookerElement mousemove (mouseAt 300 300 0));
               ([], Dom TheLookerElement mouseup (mouseAt 300 300 0));
               ([], Dom TheCanvasElement mousemove (mouseAt 310 300 0))]
              (fst (run clampOneToTen
                      (drag ([], mouseAt 100 100 0)
                            [([], mouseAt 150 120 0)])
                      aWorld)) eq_refl) as ((Hpan & _) & _).
  rewrite Hpan. vm_compute. reflexivity.
Defined.

(** ** Toggles and the events dispatched *)

(** The resolver dispatches [tooltip] events only, one at most. *)
Lemma dispatchTooltipEvent_is_tooltip (s : BaseState)
  (overlays : list Overlay) :
  dispatchTooltipEvent s overlays = []
  \/ exists d, dispatchTooltipEvent s overlays = [dispatchEvent "tooltip" d].
Proof.
  unfold dispatchTooltipEvent.
  destruct (playing s && thumbnail (config s)); [now left|].
  destruct (negb (showTooltip (options s))); [now left|].
  right. eauto.
Qed.

Lemma filter_tooltip_resolver (s : BaseState) (overlays : list Overlay) :
  List.filter isTooltip (dispatchTooltipEvent s overlays)
  = dispatchTooltipEvent s overlays /\
  List.filter isOptionsEvent (dispatchTooltipEvent s overlays) = [] /\
  List.filter isSelect (dispatchTooltipEvent s overlays) = [].
Proof.
  destruct (dispatchTooltipEvent_is_tooltip s overlays) as [-> | [d ->]];
    auto.
Qed.

Section Events.

Variable clampScale : Dimensions -> Dimensions -> Q -> Q.

(** X10.  Toggles are involutions.  Two clicks on the fullscreen button,
    on the options button, or on one of the four rows of the options
    panel bring the world back to what it was before the first. *)
Theorem two_clicks_restore (c : ElementClass) (first second : list Overlay)
  (e1 e2 : DomEvent) (w : World) :
  isToggle c = true ->
  fst (run clampScale [(first, Dom c click e1); (second, Dom c click e2)] w)
  = w.
Proof.
  intros Htoggle. rewrite !run_cons. cbn [run fst].
  destruct w as [s l t n]. destruct s as [? ? ? ? ? ? ? ? ? ? ? ? ? ? ? ? ? ? o].
  destruct o.
  destruct c; try discriminate; cbn; unfold_handlers; run_handler;
    rewrite negb_involutive; reflexivity.
Qed.

(** X11.  Which clicks change the options and which announce it.  For
    every input: the options of the state change only by a click on one
    of the four rows of the options panel, which toggles that row's key;
    an [options] event is dispatched only by the rows [showLabel],
    [showConfidence] and [showTooltip], exactly one, whose payload is the
    single key with the value committed; the row [onlyShowHoveredLabel]
    commits its toggle and dispatches no [options] event. *)
Theorem options_events (overlays : list Overlay) (i : Input) (w : World) :
  options (state (fst (step clampScale overlays i w)))
  = match committedKey i (options (state w)) with
    | Some key => mergeOptions (options (state w)) [key]
    | None => options (state w)
    end /\
  List.filter isOptionsEvent (snd (step clampScale overlays i w))
  = match announcedKey i (options (state w)) with
    | Some key => [dispatchEvent "options" (OptionsDetail [key])]
    | None => []
    end.
Proof.
  by_cases_on_input i w;
    rewrite ?(proj1 (proj2 (filter_tooltip_resolver _ _)));
    try (split; reflexivity).
  split; [reflexivity|]. destruct overlays; reflexivity.
Qed.

(** X12.  Where [select] comes from.  For every input: a [select] event
    is dispatched only by a click on the canvas, outside thumbnail mode
    and with an overlay in the list; it is one event, for the first
    overlay, with the select data that overlay gives for the state the
    click commits (the one with the options panel closed). *)
Theorem select_events (overlays : list Overlay) (i : Input) (w : World) :
  List.filter isSelect (snd (step clampScale overlays i w))
  = if isCanvasClick i && negb (thumbnail (config (state w)))
    then match overlays with
         | o :: _ =>
             [dispatchEvent "select"
                (SelectDetail
                   (getSelectData o
                      (mergeUpdates (state w) [Set_showOptions false])))]
         | [] => []
         end
    else [].
Proof.
  by_cases_on_input i w;
    rewrite ?(proj2 (proj2 (filter_tooltip_resolver _ _)));
    try reflexivity.
  all: destruct overlays; try reflexivity;
    cbn in *; rewrite ?Heqb; try reflexivity.
Qed.

(** X13.  Where [tooltip] comes from.  For every input: the canvas's
    [mouseleave] dispatches [tooltip] with [null]; the arrow keys and the
    wheel on the looker and a pointer move on the canvas dispatch what
    the resolver makes of the committed state and the overlay list (one
    event or none); every other handler and timer, a drag's pointer moves
    and the double click among them, dispatches no [tooltip]. *)
Theorem tooltip_events (overlays : list Overlay) (i : Input) (w : World) :
  List.filter isTooltip (snd (step clampScale overlays i w))
  = if isCanvasMouseleave i then [dispatchEvent "tooltip" Null]
    else if invokesTooltipResolver i
         then dispatchTooltipEvent
                (state (fst (step clampScale overlays i w))) overlays
         else [].
Proof.
  by_cases_on_input i w; try discriminate;
    rewrite ?(proj1 (filter_tooltip_resolver _ _));
    try reflexivity.
  destruct overlays; reflexivity.
Qed.

End Events.

Lemma two_clicks_restore_witness :
  isToggle TheShowTooltipOptionElement = true /\
  showTooltip
    (options (state (fst (step clampOneToTen []
                            (Dom TheShowTooltipOptionElement click
                               (mouseAt 0 0 0)) aWorld)))) = false /\
  fst (run clampOneToTen
         [([], Dom TheShowTooltipOptionElement click (mouseAt 0 0 0));
          ([], Dom TheShowTooltipOptionElement click (mouseAt 0 0 0))]
         aWorld)
  = aWorld.
Proof.
  split; [reflexivity|]. split; [reflexivity|].
  exact (two_clicks_restore clampOneToTen TheShowTooltipOptionElement [] []
           (mouseAt 0 0 0) (mouseAt 0 0 0) aWorld eq_refl).
Defined.

(** * Further properties of [overlays/base.ts] *)

(** X14.  [isShown] throws only what the call of [filter[field]] throws.
    If [isShown] throws, then the field is not excluded by [activePaths],
    the filter object is there, and either its own predicate under the
    field's name threw that error on the label, or it has no such
    predicate and the property read found a member of [Object.prototype]
    whose call threw it (as [__proto__], which is not a function). *)
Theorem isShown_throws_only_what_the_call_throws `{Runtime} (s : BaseState)
  (f : string) (l : RegularLabel) (error : string) :
  isShown s f l = Throws error ->
  ~ excluded s f /\
  ((exists predicate,
       fieldFilter s f = Some predicate /\ predicate l = Throws error) \/
   (fieldFilter s f = None /\
    exists filters member,
      filter (options s) = Some filters /\
      objectPrototype f = Some member /\
      member filters l = Throws error)).
Proof.
  intros Hthrows. destruct (excluded_dec s f) as [He|Hn].
  - rewrite isShown_excluded in Hthrows by assumption. discriminate.
  - split; [exact Hn|].
    rewrite isShown_not_excluded in Hthrows by assumption.
    unfold filterProperty, fieldFilter in *.
    destruct (filter (options s)) as [filters|]; cbn; [|discriminate].
    destruct (filters !! f) as [predicate|] eqn:Hown.
    + left. exists predicate. split; [reflexivity|].
      destruct (predicate l); [discriminate|]. cbn in Hthrows. congruence.
    + right. split; [reflexivity|].
      destruct (objectPrototype f) as [member|] eqn:Hmember; [|discriminate].
      exists filters, member. auto.
Qed.

Lemma isShown_throws_only_what_the_call_throws_witness :
  isShown (withOptions aState filteredOptions) "ground_truth" bareLabel
    = Throws "TypeError: confidence is undefined" /\
  (exists predicate,
      fieldFilter (withOptions aState filteredOptions) "ground_truth"
        = Some predicate /\
      predicate bareLabel = Throws "TypeError: confidence is undefined") /\
  isShown (withOptions aState openOptions) "__proto__" aLabel
    = Throws "TypeError: state.options.filter[field] is not a function" /\
  fieldFilter (withOptions aState openOptions) "__proto__" = None.
Proof.
  split; [reflexivity|]. split; [|split; reflexivity].
  destruct (isShown_throws_only_what_the_call_throws
              (withOptions aState filteredOptions) "ground_truth"
              bareLabel "TypeError: confidence is undefined" eq_refl)
    as (_ & [Hown | (Hnone & _)]).
  - exact Hown.
  - discriminate.
Defined.

(** X15.  An empty [activePaths] hides everything.  The empty array is
    truthy, so with [activePaths = []] no field is included: [isShown]
    returns [false] for every field and label, whatever the filters are,
    and no predicate is called.  With [activePaths] and [filter] both
    undefined it returns [true] for every field and label. *)
Theorem isShown_empty_activePaths `{Runtime} (s : BaseState) (f : string)
  (l : RegularLabel) :
  (activePaths (options s) = Some [] -> isShown s f l = Returns false) /\
  (activePaths (options s) = None -> filter (options s) = None ->
   isShown s f l = Returns true).
Proof.
  unfold isShown. split.
  - intros ->. reflexivity.
  - intros -> ->. reflexivity.
Qed.

(** * Properties of rendering *)

Lemma renders_cons {E : Type}
  (renderSelf : E -> BaseState -> E * list DomWrite) (element : E)
  (s : BaseState) (rest : list BaseState) :
  renders renderSelf element (s :: rest)
  = (fst (renders renderSelf (fst (renderSelf element s)) rest),
     (snd (renderSelf element s)
      ++ snd (renders renderSelf (fst (renderSelf element s)) rest))%list).
Proof.
  cbn [renders]. destruct (renderSelf element s) as [e1 w1]. cbn [fst snd].
  destruct (renders renderSelf e1 rest). reflexivity.
Qed.

Lemma renders_app {E : Type}
  (renderSelf : E -> BaseState -> E * list DomWrite) (element : E)
  (before after : list BaseState) :
  fst (renders renderSelf element (before ++ after))
  = fst (renders renderSelf (fst (renders renderSelf element before)) after).
Proof.
  revert element. induction before as [|s rest IH]; intros element.
  - reflexivity.
  - cbn [app]. rewrite !renders_cons. cbn [fst]. apply IH.
Qed.

(** ** [LookerElement.renderSelf] *)

Lemma LookerElement_renderSelf_classes (element : LookerDiv)
  (s : BaseState) :
  (forall token,
      token ∈ lk_classList (fst (LookerElement_renderSelf element s))
      <-> token ∈ lk_classList element
          /\ (loaded s = true -> token <> "loading")) /\
  List.filter removesLoading (snd (LookerElement_renderSelf element s))
  = if loaded s && bool_decide ("loading" ∈ lk_classList element)
    then [ClassListRemove "loading"] else [].
Proof.
  unfold LookerElement_renderSelf.
  destruct (loaded s); cbn [andb].
  - destruct (bool_decide_reflect ("loading" ∈ lk_classList element))
      as [Hin|Hout];
      destruct (negb (thumbnail (config s)) && hovering s && _);
      cbn; (split; [|reflexivity]); intros token;
      rewrite ?elem_of_difference, ?elem_of_singleton.
    + split; [intros [? ?]; auto | intros [? Hne]; auto].
    + split; [intros [? ?]; auto | intros [? Hne]; auto].
    + split; [intros ?; split; [assumption|congruence] | tauto].
    + split; [intros ?; split; [assumption|congruence] | tauto].
  - destruct (negb (thumbnail (config s)) && hovering s && _);
      cbn; (split; [|reflexivity]); intros token;
      (split; [intros ?; split; [assumption|discriminate] | tauto]).
Qed.

Lemma looker_renders_classes (element : LookerDiv) (states : list BaseState) :
  (forall token,
      token ∈ lk_classList
                (fst (renders LookerElement_renderSelf element states))
      <-> token ∈ lk_classList element
          /\ (forallb (fun s => negb (loaded s)) states = false ->
              token <> "loading")) /\
  List.filter removesLoading
    (snd (renders LookerElement_renderSelf element states))
  = if bool_decide ("loading" ∈ lk_classList element)
       && negb (forallb (fun s => negb (loaded s)) states)
    then [ClassListRemove "loading"] else [].
Proof.
  revert element. induction states as [|s rest IH]; intros element.
  - cbn. rewrite andb_false_r. split; [|reflexivity].
    intros token. split; [intros ?; split; [assumption|discriminate]|tauto].
  - rewrite renders_cons. cbn [fst snd forallb]. rewrite List.filter_app.
    destruct (LookerElement_renderSelf_classes element s)
      as (Hclasses & Hwrites).
    destruct (IH (fst (LookerElement_renderSelf element s)))
      as (Hrest & Hcount).
    rewrite Hwrites, Hcount. split.
    + intros token. rewrite Hrest, Hclasses.
      destruct (loaded s); cbn [negb andb].
      * split; [intros [[? Hne] _]; auto | intros [? Hne]; auto].
      * split; [intros [[? _] Hne]; auto
               | intros [? Hne]; repeat split; auto; discriminate].
    + destruct (loaded s); cbn [negb andb].
      * rewrite andb_true_r.
        destruct (bool_decide_reflect ("loading" ∈ lk_classList element))
          as [Hin|Hout].
        -- rewrite (bool_decide_eq_false_2
                      ("loading" ∈ lk_classList
                                     (fst (LookerElement_renderSelf element s)))).
           ++ reflexivity.
           ++ rewrite Hclasses. intros [_ Hne]. now apply Hne.
        -- rewrite (bool_decide_eq_false_2
                      ("loading" ∈ lk_classList
                                     (fst (LookerElement_renderSelf element s)))).
           ++ reflexivity.
           ++ rewrite Hclasses. intros [? _]. contradiction.
      * assert (Hsame :
          bool_decide ("loading" ∈ lk_classList
                                     (fst (LookerElement_renderSelf element s)))
          = bool_decide ("loading" ∈ lk_classList element)).
        { apply bool_decide_ext. rewrite Hclasses.
          split; [tauto | intros ?; split; [assumption|discriminate]]. }
        rewrite Hsame. reflexivity.
Qed.

(** X16.  The [loading] class goes once and for good.  After any sequence
    of renders of a looker element just created, the element has the
    class [loading] exactly when none of the rendered states was loaded;
    it keeps the class [looker]; and the renders call
    [classList.remove("loading")] once if some state was loaded and never
    otherwise. *)
Theorem loading_class_removed_once (states : list BaseState) :
  ("loading" ∈ lk_classList
                 (fst (renders LookerElement_renderSelf
                         LookerElement_createHTMLElement states))
   <-> forallb (fun s => negb (loaded s)) states = true) /\
  "looker" ∈ lk_classList
               (fst (renders LookerElement_renderSelf
                       LookerElement_createHTMLElement states)) /\
  List.filter removesLoading
    (snd (renders LookerElement_renderSelf
            LookerElement_createHTMLElement states))
  = if forallb (fun s => negb (loaded s)) states then []
    else [ClassListRemove "loading"].
Proof.
  destruct (looker_renders_classes LookerElement_createHTMLElement states)
    as (Hclasses & Hcount).
  assert (Hloading :
            "loading" ∈ lk_classList LookerElement_createHTMLElement).
  { cbn. rewrite elem_of_union, !elem_of_singleton. now right. }
  assert (Hlooker : "looker" ∈ lk_classList LookerElement_createHTMLElement).
  { cbn. rewrite elem_of_union, !elem_of_singleton. now left. }
  split; [|split].
  - rewrite Hclasses.
    destruct (forallb (fun s => negb (loaded s)) states).
    + split; [reflexivity|]. intros _. split; [exact Hloading|discriminate].
    + split; [intros [_ Hne]; now contradiction Hne | discriminate].
  - rewrite Hclasses. split; [exact Hlooker | discriminate].
  - rewrite Hcount, (bool_decide_eq_true_2 _ Hloading). cbn [andb].
    destruct (forallb _ states); reflexivity.
Qed.

(** ** [CanvasElement.renderSelf] *)

Lemma CanvasElement_renderSelf_uncached (this : CanvasElement)
  (s : BaseState) :
  cv_width this = None -> cv_height this = None ->
  cv_width (fst (CanvasElement_renderSelf this s)) = None /\
  cv_height (fst (CanvasElement_renderSelf this s)) = None /\
  cv_cursor (fst (CanvasElement_renderSelf this s))
  = cursorFor s (cv_cursor this) /\
  snd (CanvasElement_renderSelf this s)
  = ([SetWidth (snd (fst (windowBBox s))); SetHeight (snd (windowBBox s))]
     ++ if String.eqb (cursorFor s (cv_cursor this)) (cv_cursor this)
        then []
        else [SetStyle "cursor" (cursorFor s (cv_cursor this))])%list.
Proof.
  intros Hw Hh. unfold CanvasElement_renderSelf, cursorFor.
  destruct (windowBBox s) as [[[tlx tly] width] height].
  rewrite Hw, Hh. cbn [differs fst snd].
  destruct (panning s), (thumbnail (config s)); cbn [andb negb];
    rewrite ?(String.eqb_sym "all-scroll"), ?(String.eqb_sym "default");
    try (destruct (String.eqb (cv_cursor this) "all-scroll") eqn:Hscroll);
    try (destruct (String.eqb (cv_cursor this) "default") eqn:Hdefault);
    cbn; rewrite ?String.eqb_refl, ?Hw, ?Hh;
    try (apply String.eqb_eq in Hscroll);
    try (apply String.eqb_eq in Hdefault); auto.
Qed.

Lemma canvas_renders_uncached (states : list BaseState) :
  cv_width (fst (renders CanvasElement_renderSelf
                   CanvasElement_createHTMLElement states)) = None /\
  cv_height (fst (renders CanvasElement_renderSelf
                    CanvasElement_createHTMLElement states)) = None.
Proof.
  assert (Hgen : forall this,
             cv_width this = None -> cv_height this = None ->
             cv_width (fst (renders CanvasElement_renderSelf this states))
             = None /\
             cv_height (fst (renders CanvasElement_renderSelf this states))
             = None).
  { induction states as [|s rest IH]; intros this Hw Hh.
    - auto.
    - rewrite renders_cons. cbn [fst].
      destruct (CanvasElement_renderSelf_uncached this s Hw Hh)
        as (Hw' & Hh' & _).
      now apply IH. }
  now apply Hgen.
Qed.

(** X17.  The canvas is resized on every render and its cursor follows
    the drag.  Nothing assigns the private fields [width] and [height],
    so after any renders they are still undefined and every render
    assigns the canvas the width and height of the window box, changed or
    not.  The cursor after a render is [all-scroll] during a drag,
    [default] otherwise outside thumbnail mode, and what it was in a
    thumbnail that is not dragged; [style.cursor] is written only when
    that differs from the cursor before. *)
Theorem canvas_render (states : list BaseState) (s : BaseState) :
  cv_width (fst (renders CanvasElement_renderSelf
                   CanvasElement_createHTMLElement (states ++ [s]))) = None /\
  cv_height (fst (renders CanvasElement_renderSelf
                    CanvasElement_createHTMLElement (states ++ [s]))) = None /\
  cv_cursor (fst (renders CanvasElement_renderSelf
                    CanvasElement_createHTMLElement (states ++ [s])))
  = cursorFor s
      (cv_cursor (fst (renders CanvasElement_renderSelf
                         CanvasElement_createHTMLElement states))) /\
  snd (CanvasElement_renderSelf
         (fst (renders CanvasElement_renderSelf
                 CanvasElement_createHTMLElement states)) s)
  = ([SetWidth (snd (fst (windowBBox s))); SetHeight (snd (windowBBox s))]
     ++ if String.eqb
             (cursorFor s
                (cv_cursor (fst (renders CanvasElement_renderSelf
                                   CanvasElement_createHTMLElement states))))
             (cv_cursor (fst (renders CanvasElement_renderSelf
                                CanvasElement_createHTMLElement states)))
        then []
        else [SetStyle "cursor"
                (cursorFor s
                   (cv_cursor (fst (renders CanvasElement_renderSelf
                                      CanvasElement_createHTMLElement
                                      states))))])%list.
Proof.
  destruct (canvas_renders_uncached states) as (Hw & Hh).
  destruct (canvas_renders_uncached (states ++ [s])) as (Hw' & Hh').
  rewrite renders_app in *. rewrite renders_cons in *. cbn [renders fst] in *.
  destruct (CanvasElement_renderSelf_uncached _ s Hw Hh)
    as (_ & _ & Hcursor & Hwrites).
  auto.
Qed.

(** ** [ControlsElement.renderSelf] *)

Lemma cachedIs_true (cached : option bool) (b : bool) :
  cachedIs cached b = true <-> cached = Some b.
Proof.
  destruct cached as [c|]; cbn; [|split; discriminate].
  rewrite Bool.eqb_true_iff. split; congruence.
Qed.

Lemma ControlsElement_renderSelf_coherent (this : ControlsElement)
  (s : BaseState) :
  controlsCoherent this ->
  controlsCoherent (fst (ControlsElement_renderSelf this s)) /\
  (thumbnail (config s) = false ->
   ct_showControls (fst (ControlsElement_renderSelf this s))
   = Some (controlsVisible s)).
Proof.
  intros Hco. unfold ControlsElement_renderSelf, controlsVisible.
  destruct (thumbnail (config s)); [split; [exact Hco|discriminate]|].
  destruct (cachedIs _ _) eqn:Hcache.
  - apply cachedIs_true in Hcache. split; [exact Hco|]. intros _. exact Hcache.
  - destruct (showControls s && negb (disableControls s));
      cbn; unfold controlsCoherent; cbn; auto.
Qed.

Lemma controls_renders_coherent (states : list BaseState) :
  controlsCoherent
    (fst (renders ControlsElement_renderSelf
            ControlsElement_createHTMLElement states)).
Proof.
  assert (Hgen : forall this,
             controlsCoherent this ->
             controlsCoherent
               (fst (renders ControlsElement_renderSelf this states))).
  { induction states as [|s rest IH]; intros this Hco.
    - exact Hco.
    - rewrite renders_cons. cbn [fst]. apply IH.
      now apply ControlsElement_renderSelf_coherent. }
  apply Hgen. exact I.
Qed.

(** X18.  The controls show what the state says, and an unchanged
    visibility costs no write.  After any renders of a controls element
    just created, a render of a state outside thumbnail mode leaves the
    opacity at 0.9 and the height unset when [showControls] holds and
    [disableControls] does not, and at 0.0 and 0 otherwise; rendering that
    state again writes nothing; and a render of a thumbnail state writes
    nothing and changes nothing. *)
Theorem controls_render (states : list BaseState) (s : BaseState) :
  thumbnail (config s) = false ->
  ct_opacity (fst (renders ControlsElement_renderSelf
                     ControlsElement_createHTMLElement (states ++ [s])))
  = (if controlsVisible s then "0.9" else "0.0") /\
  ct_height (fst (renders ControlsElement_renderSelf
                    ControlsElement_createHTMLElement (states ++ [s])))
  = (if controlsVisible s then "unset" else "0") /\
  ControlsElement_renderSelf
    (fst (renders ControlsElement_renderSelf
            ControlsElement_createHTMLElement (states ++ [s]))) s
  = (fst (renders ControlsElement_renderSelf
            ControlsElement_createHTMLElement (states ++ [s])), []) /\
  (forall t, thumbnail (config t) = true ->
             ControlsElement_renderSelf
               (fst (renders ControlsElement_renderSelf
                       ControlsElement_createHTMLElement (states ++ [s]))) t
             = (fst (renders ControlsElement_renderSelf
                       ControlsElement_createHTMLElement (states ++ [s])),
                [])).
Proof.
  intros Hthumb.
  pose proof (controls_renders_coherent (states ++ [s])) as Hco.
  pose proof (controls_renders_coherent states) as Hbefore.
  rewrite renders_app, renders_cons in *. cbn [renders fst] in *.
  destruct (ControlsElement_renderSelf_coherent _ s Hbefore)
    as (_ & Hcache). specialize (Hcache Hthumb).
  set (this := fst (ControlsElement_renderSelf _ s)) in *.
  unfold controlsCoherent in Hco. rewrite Hcache in Hco.
  repeat split.
  - destruct (controlsVisible s); apply Hco.
  - destruct (controlsVisible s); apply Hco.
  - unfold ControlsElement_renderSelf at 1. rewrite Hthumb.
    fold (controlsVisible s). rewrite (proj2 (cachedIs_true _ _) Hcache).
    reflexivity.
  - intros t Ht. unfold ControlsElement_renderSelf at 1. now rewrite Ht.
Qed.

Lemma controls_render_witness :
  thumbnail (config aState) = false /\
  ct_opacity
    (fst (renders ControlsElement_renderSelf
            ControlsElement_createHTMLElement
            ([state aThumbnail;
              state (fst (step clampOneToTen []
                            (Dom TheLookerElement mouseenter (mouseAt 5 5 0))
                            aWorld))] ++ [aState])))
  = "0.0" /\
  snd (renders ControlsElement_renderSelf
         ControlsElement_createHTMLElement
         [state aThumbnail;
          state (fst (step clampOneToTen []
                        (Dom TheLookerElement mouseenter (mouseAt 5 5 0))
                        aWorld));
          aState; aState])
  = [SetStyle "opacity" "0.9"; SetStyle "height" "unset";
     SetStyle "opacity" "0.0"; SetStyle "height" "0"].
Proof.
  split; [reflexivity|]. split; [|reflexivity].
  exact (proj1 (controls_render
                  [state aThumbnail;
                   state (fst (step clampOneToTen []
                                 (Dom TheLookerElement mouseenter
                                    (mouseAt 5 5 0)) aWorld))]
                  aState eq_refl)).
Defined.

Section Hidden.

Variable clampScale : Dimensions -> Dimensions -> Q -> Q.

Lemma step_keeps_controls_disabled (overlays : list Overlay) (i : Input)
  (w : World) :
  isLookerMouseleave i = false ->
  config (state (fst (step clampScale overlays i w))) = config (state w) /\
  (disableControls (state w) = true ->
   disableControls (state (fst (step clampScale overlays i w))) = true).
Proof.
  intros Hnot. revert Hnot. by_cases_on_input i w; intros Hnot;
    try discriminate; auto.
Qed.

Lemma run_keeps_controls_disabled (inputs : list (list Overlay * Input))
  (w : World) :
  forallb (fun oi => negb (isLookerMouseleave (snd oi))) inputs = true ->
  disableControls (state w) = true ->
  config (state (fst (run clampScale inputs w))) = config (state w) /\
  disableControls (state (fst (run clampScale inputs w))) = true.
Proof.
  revert w. induction inputs as [|[overlays i] rest IH]; intros w Hall Hdis.
  - auto.
  - cbn [forallb snd] in Hall. apply andb_true_iff in Hall as [Hi Hrest].
    apply negb_true_iff in Hi. rewrite run_cons. cbn [fst].
    destruct (step_keeps_controls_disabled overlays i w Hi) as (Hc & Hd).
    destruct (IH _ Hrest (Hd Hdis)) as (Hc' & Hd').
    split; congruence.
Qed.

(** X19.  A click on the controls hides them until the pointer leaves
    the looker.  Outside thumbnail mode, after a click on the controls
    element and any further inputs that are not the looker's [mouseleave]
    (the looker's [mouseenter], which sets [showControls], among them),
    [disableControls] is still set, and a render of the controls element,
    whatever it rendered before, leaves its opacity at 0.0 and its height
    at 0. *)
Theorem controls_stay_hidden_after_click (overlays : list Overlay)
  (event : DomEvent) (inputs : list (list Overlay * Input))
  (rendered : list BaseState) (w : World) :
  thumbnail (config (state w)) = false ->
  forallb (fun oi => negb (isLookerMouseleave (snd oi))) inputs = true ->
  disableControls
    (state (fst (run clampScale
                   ((overlays, Dom TheControlsElement click event) :: inputs)
                   w))) = true /\
  ct_opacity
    (fst (renders ControlsElement_renderSelf
            ControlsElement_createHTMLElement
            (rendered
             ++ [state (fst (run clampScale
                               ((overlays,
                                 Dom TheControlsElement click event)
                                :: inputs) w))])))
  = "0.0" /\
  ct_height
    (fst (renders ControlsElement_renderSelf
            ControlsElement_createHTMLElement
            (rendered
             ++ [state (fst (run clampScale
                               ((overlays,
                                 Dom TheControlsElement click event)
                                :: inputs) w))])))
  = "0".
Proof.
  intros Hthumb Hall. rewrite run_cons. cbn [fst].
  set (w1 := fst (step clampScale overlays
                    (Dom TheControlsElement click event) w)).
  assert (Hclick : disableControls (state w1) = true
                   /\ config (state w1) = config (state w))
    by (split; reflexivity).
  destruct Hclick as (Hdis & Hconfig).
  destruct (run_keeps_controls_disabled inputs w1 Hall Hdis)
    as (Hconfig' & Hdis').
  set (s := state (fst (run clampScale inputs w1))) in *.
  assert (Hs : thumbnail (config s) = false) by congruence.
  pose proof (controls_renders_coherent (rendered ++ [s])) as Hco.
  pose proof (controls_renders_coherent rendered) as Hbefore.
  rewrite renders_app, renders_cons in *. cbn [renders fst] in *.
  destruct (ControlsElement_renderSelf_coherent _ s Hbefore)
    as (_ & Hcache). specialize (Hcache Hs).
  unfold controlsCoherent in Hco. rewrite Hcache in Hco.
  unfold controlsVisible in Hco. rewrite Hdis', andb_false_r in Hco.
  split; [exact Hdis'|]. exact Hco.
Qed.

End Hidden.

(** ** [OptionsPanelElement.renderSelf] *)

Lemma OptionsPanelElement_renderSelf_coherent (this : OptionsPanelElement)
  (s : BaseState) :
  optionsPanelCoherent this ->
  optionsPanelCoherent (fst (OptionsPanelElement_renderSelf this s)) /\
  (thumbnail (config s) = false ->
   op_showOptions (fst (OptionsPanelElement_renderSelf this s))
   = Some (showOptions s)).
Proof.
  intros Hco. unfold OptionsPanelElement_renderSelf.
  destruct (thumbnail (config s)); [split; [exact Hco|discriminate]|].
  destruct (cachedIs _ _) eqn:Hcache.
  - apply cachedIs_true in Hcache. split; [exact Hco|]. intros _. exact Hcache.
  - destruct Hco as (Hpanel & _).
    destruct (showOptions s); cbn; unfold optionsPanelCoherent; cbn;
      rewrite ?elem_of_difference, ?elem_of_union, ?elem_of_singleton;
      repeat split; auto; try discriminate;
      try (intros [_ Hne]; now apply Hne).
Qed.

Lemma optionsPanel_renders_coherent (states : list BaseState) :
  optionsPanelCoherent
    (fst (renders OptionsPanelElement_renderSelf
            OptionsPanelElement_createHTMLElement states)).
Proof.
  assert (Hgen : forall this,
             optionsPanelCoherent this ->
             optionsPanelCoherent
               (fst (renders OptionsPanelElement_renderSelf this states))).
  { induction states as [|s rest IH]; intros this Hco.
    - exact Hco.
    - rewrite renders_cons. cbn [fst]. apply IH.
      now apply OptionsPanelElement_renderSelf_coherent. }
  apply Hgen. split; [|exact I]. cbn. now apply elem_of_singleton.
Qed.

(** X20.  The options panel is displayed exactly when [showOptions]
    holds.  After any renders of an options panel just created, a render
    of a state outside thumbnail mode leaves the class
    [looker-display-none] on the element exactly when [showOptions] is
    false, the opacity at 0.9 or 0.0 accordingly, and the class
    [looker-options-panel] in place; rendering that state again writes
    nothing. *)
Theorem optionsPanel_render (states : list BaseState) (s : BaseState) :
  thumbnail (config s) = false ->
  ("looker-display-none"
     ∈ op_classList (fst (renders OptionsPanelElement_renderSelf
                            OptionsPanelElement_createHTMLElement
                            (states ++ [s])))
   <-> showOptions s = false) /\
  op_opacity (fst (renders OptionsPanelElement_renderSelf
                     OptionsPanelElement_createHTMLElement (states ++ [s])))
  = (if showOptions s then "0.9" else "0.0") /\
  "looker-options-panel"
    ∈ op_classList (fst (renders OptionsPanelElement_renderSelf
                           OptionsPanelElement_createHTMLElement
                           (states ++ [s]))) /\
  OptionsPanelElement_renderSelf
    (fst (renders OptionsPanelElement_renderSelf
            OptionsPanelElement_createHTMLElement (states ++ [s]))) s
  = (fst (renders OptionsPanelElement_renderSelf
            OptionsPanelElement_createHTMLElement (states ++ [s])), []).
Proof.
  intros Hthumb.
  pose proof (optionsPanel_renders_coherent (states ++ [s])) as Hco.
  pose proof (optionsPanel_renders_coherent states) as Hbefore.
  rewrite renders_app, renders_cons in *. cbn [renders fst] in *.
  destruct (OptionsPanelElement_renderSelf_coherent _ s Hbefore)
    as (_ & Hcache). specialize (Hcache Hthumb).
  set (this := fst (OptionsPanelElement_renderSelf _ s)) in *.
  destruct Hco as (Hpanel & Hco). rewrite Hcache in Hco.
  split; [|split; [|split]].
  - destruct (showOptions s); destruct Hco as (_ & Hclass).
    + split; [contradiction | discriminate].
    + split; auto.
  - destruct (showOptions s); apply Hco.
  - exact Hpanel.
  - unfold OptionsPanelElement_renderSelf at 1. rewrite Hthumb.
    rewrite (proj2 (cachedIs_true _ _) Hcache). reflexivity.
Qed.

Lemma optionsPanel_render_witness :
  thumbnail (config aState) = false /\
  op_opacity
    (fst (renders OptionsPanelElement_renderSelf
            OptionsPanelElement_createHTMLElement
            ([state (fst (step clampOneToTen []
                            (Dom TheOptionsButtonElement click
                               (mouseAt 0 0 0)) aWorld))] ++ [aState])))
  = "0.0" /\
  snd (renders OptionsPanelElement_renderSelf
         OptionsPanelElement_createHTMLElement
         [state (fst (step clampOneToTen []
                        (Dom TheOptionsButtonElement click (mouseAt 0 0 0))
                        aWorld));
          aState; aState])
  = [SetStyle "opacity" "0.9"; ClassListRemove "looker-display-none";
     SetStyle "opacity" "0.0"; ClassListAdd "looker-display-none"].
Proof.
  split; [reflexivity|]. split; [|reflexivity].
  exact (proj1 (proj2 (optionsPanel_render
                  [state (fst (step clampOneToTen []
                                 (Dom TheOptionsButtonElement click
                                    (mouseAt 0 0 0)) aWorld))]
                  aState eq_refl))).
Defined.

(** ** [FullscreenButtonElement.renderSelf] *)

Section FullscreenButton.

Variable clampScale : Dimensions -> Dimensions -> Q -> Q.
Variable ICONS_fullscreen ICONS_fullscreenExit : string.

Lemma FullscreenButtonElement_renderSelf_coherent
  (this : FullscreenButtonElement) (s : BaseState) :
  fullscreenButtonCoherent ICONS_fullscreenExit ICONS_fullscreen this ->
  fullscreenButtonCoherent ICONS_fullscreenExit ICONS_fullscreen
    (fst (FullscreenButtonElement_renderSelf
            ICONS_fullscreen ICONS_fullscreenExit this s)) /\
  fb_fullscreen (fst (FullscreenButtonElement_renderSelf
                        ICONS_fullscreen ICONS_fullscreenExit this s))
  = Some (fullscreen s).
Proof.
  intros Hco. unfold FullscreenButtonElement_renderSelf.
  destruct (cachedIs _ _) eqn:Hcache.
  - apply cachedIs_true in Hcache. split; assumption.
  - destruct (fullscreen s); cbn; unfold fullscreenButtonCoherent; cbn; auto.
Qed.

Lemma fullscreenButton_renders_coherent (states : list BaseState) :
  fullscreenButtonCoherent ICONS_fullscreenExit ICONS_fullscreen
    (fst (renders (FullscreenButtonElement_renderSelf
                     ICONS_fullscreen ICONS_fullscreenExit)
            FullscreenButtonElement_createHTMLElement states)).
Proof.
  assert (Hgen : forall this,
             fullscreenButtonCoherent ICONS_fullscreenExit ICONS_fullscreen
               this ->
             fullscreenButtonCoherent ICONS_fullscreenExit ICONS_fullscreen
               (fst (renders (FullscreenButtonElement_renderSelf
                                ICONS_fullscreen ICONS_fullscreenExit)
                       this states))).
  { induction states as [|s rest IH]; intros this Hco.
    - exact Hco.
    - rewrite renders_cons. cbn [fst]. apply IH.
      now apply FullscreenButtonElement_renderSelf_coherent. }
  apply Hgen. exact I.
Qed.

(** X21.  The fullscreen button says what a click will do.  After any
    renders of a button just created, a render of a state leaves the
    title [Minimize (m)] and the exit icon when the state is fullscreen,
    and [Maximize (m)] and the enter icon when it is not; rendering the
    state again writes nothing; and after a click on the button the next
    render shows the other title. *)
Theorem fullscreenButton_render (states : list BaseState) (s : BaseState)
  (overlays : list Overlay) (event : DomEvent) (w : World) :
  fb_title (fst (renders (FullscreenButtonElement_renderSelf
                            ICONS_fullscreen ICONS_fullscreenExit)
                   FullscreenButtonElement_createHTMLElement
                   (states ++ [s])))
  = (if fullscreen s then "Minimize (m)" else "Maximize (m)") /\
  fb_src (fst (renders (FullscreenButtonElement_renderSelf
                          ICONS_fullscreen ICONS_fullscreenExit)
                 FullscreenButtonElement_createHTMLElement
                 (states ++ [s])))
  = (if fullscreen s then ICONS_fullscreenExit else ICONS_fullscreen) /\
  FullscreenButtonElement_renderSelf ICONS_fullscreen ICONS_fullscreenExit
    (fst (renders (FullscreenButtonElement_renderSelf
                     ICONS_fullscreen ICONS_fullscreenExit)
            FullscreenButtonElement_createHTMLElement (states ++ [s]))) s
  = (fst (renders (FullscreenButtonElement_renderSelf
                     ICONS_fullscreen ICONS_fullscreenExit)
            FullscreenButtonElement_createHTMLElement (states ++ [s])), []) /\
  fb_title (fst (renders (FullscreenButtonElement_renderSelf
                            ICONS_fullscreen ICONS_fullscreenExit)
                   FullscreenButtonElement_createHTMLElement
                   (states
                    ++ [state w;
                        state (fst (step clampScale overlays
                                      (Dom TheFullscreenButtonElement click
                                         event) w))])))
  = (if fullscreen (state w) then "Maximize (m)" else "Minimize (m)").
Proof.
  assert (Hone : forall before t,
    fb_fullscreen (fst (renders (FullscreenButtonElement_renderSelf
                                   ICONS_fullscreen ICONS_fullscreenExit)
                          FullscreenButtonElement_createHTMLElement
                          (before ++ [t])))
    = Some (fullscreen t) /\
    fb_title (fst (renders (FullscreenButtonElement_renderSelf
                              ICONS_fullscreen ICONS_fullscreenExit)
                     FullscreenButtonElement_createHTMLElement
                     (before ++ [t])))
    = (if fullscreen t then "Minimize (m)" else "Maximize (m)") /\
    fb_src (fst (renders (FullscreenButtonElement_renderSelf
                            ICONS_fullscreen ICONS_fullscreenExit)
                   FullscreenButtonElement_createHTMLElement
                   (before ++ [t])))
    = (if fullscreen t then ICONS_fullscreenExit else ICONS_fullscreen)).
  { intros before t.
    pose proof (fullscreenButton_renders_coherent (before ++ [t])) as Hco.
    pose proof (fullscreenButton_renders_coherent before) as Hbefore.
    rewrite renders_app, renders_cons in *. cbn [renders fst] in *.
    destruct (FullscreenButtonElement_renderSelf_coherent _ t Hbefore)
      as (_ & Hcache).
    unfold fullscreenButtonCoherent in Hco. rewrite Hcache in Hco.
    split; [exact Hcache|]. destruct (fullscreen t); destruct Hco; auto. }
  destruct (Hone states s) as (Hcache & Htitle & Hsrc).
  split; [exact Htitle|]. split; [exact Hsrc|]. split.
  - unfold FullscreenButtonElement_renderSelf at 1.
    rewrite (proj2 (cachedIs_true _ _) Hcache). reflexivity.
  - replace (states ++ [state w;
                        state (fst (step clampScale overlays
                                      (Dom TheFullscreenButtonElement click
                                         event) w))])%list
      with ((states ++ [state w])
            ++ [state (fst (step clampScale overlays
                              (Dom TheFullscreenButtonElement click event)
                              w))])%list
      by (rewrite <- app_assoc; reflexivity).
    destruct (Hone (states ++ [state w])%list
                (state (fst (step clampScale overlays
                               (Dom TheFullscreenButtonElement click event)
                               w)))) as (_ & Hafter & _).
    rewrite Hafter. cbn. destruct (fullscreen (state w)); reflexivity.
Qed.

End FullscreenButton.

Lemma controls_stay_hidden_after_click_witness :
  thumbnail (config (state aWorld)) = false /\
  showControls
    (state (fst (run clampOneToTen
                   [([], Dom TheControlsElement click (mouseAt 5 5 0));
                    ([], Dom TheLookerElement mouseenter (mouseAt 5 5 0));
                    ([], Dom TheLookerElement mousemove (mouseAt 6 5 0))]
                   aWorld))) = true /\
  ct_opacity
    (fst (renders ControlsElement_renderSelf
            ControlsElement_createHTMLElement
            ([aState]
             ++ [state (fst (run clampOneToTen
                               (([], Dom TheControlsElement click
                                       (mouseAt 5 5 0))
                                :: [([], Dom TheLookerElement mouseenter
                                           (mouseAt 5 5 0));
                                    ([], Dom TheLookerElement mousemove
                                           (mouseAt 6 5 0))])
                               aWorld))])))
  = "0.0".
Proof.
  split; [reflexivity|]. split; [reflexivity|].
  exact (proj1 (proj2 (controls_stay_hidden_after_click clampOneToTen []
                         (mouseAt 5 5 0)
                         [([], Dom TheLookerElement mouseenter
                                 (mouseAt 5 5 0));
                          ([], Dom TheLookerElement mousemove
                                 (mouseAt 6 5 0))]
                         [aState] aWorld eq_refl eq_refl))).
Defined.

(** * More of what the handlers never do *)

Section Thumbnails.

Variable clampScale : Dimensions -> Dimensions -> Q -> Q.

(** X22.  A thumbnail leaves the browser's defaults alone.  In thumbnail
    mode no listener of the looker or of the canvas calls
    [event.preventDefault()], for any event: the wheel over a thumbnail
    still scrolls the page, and a pointer-down still starts the browser's
    own drag or selection. *)
Theorem thumbnail_never_prevents_default (overlays : list Overlay)
  (i : Input) (w : World) :
  thumbnail (config (state w)) = true ->
  onLookerOrCanvas i = true ->
  List.filter isPreventDefault (snd (step clampScale overlays i w)) = [].
Proof.
  intros Hthumb Hon. revert Hon.
  assert (Hresolver : forall s,
            List.filter isPreventDefault (dispatchTooltipEvent s overlays)
            = []).
  { intros s.
    destruct (dispatchTooltipEvent_is_tooltip s overlays) as [-> | [d ->]];
      reflexivity. }
  by_cases_on_input i w; intros Hon; try discriminate;
    rewrite ?Hthumb in *; try discriminate;
    rewrite ?Hresolver; try reflexivity.
  all: destruct overlays; reflexivity.
Qed.

End Thumbnails.

Lemma thumbnail_never_prevents_default_witness :
  thumbnail (config (state aThumbnail)) = true /\
  onLookerOrCanvas (Dom TheLookerElement wheel (mouseAt 5 5 (-3))) = true /\
  List.filter isPreventDefault
    (snd (step clampOneToTen []
            (Dom TheLookerElement wheel (mouseAt 5 5 (-3))) aThumbnail))
  = [] /\
  snd (step clampOneToTen [] (Dom TheLookerElement wheel (mouseAt 5 5 (-3)))
         aThumbnail) = [dispatchEvent "tooltip" Null] /\
  snd (step clampOneToTen [] (Dom TheLookerElement wheel (mouseAt 5 5 (-3)))
         aWorld) = [preventDefault; dispatchEvent "tooltip" Null].
Proof.
  split; [reflexivity|]. split; [reflexivity|].
  split; [|split; reflexivity].
  exact (thumbnail_never_prevents_default clampOneToTen []
           (Dom TheLookerElement wheel (mouseAt 5 5 (-3))) aThumbnail
           eq_refl eq_refl).
Defined.

(** X23.  Selection goes by the label's id.  The select data of a
    coordinate overlay carries the id of its label, its field and the
    frame number of the state; and the overlay is selected exactly when
    that id is among [options.selectedLabels], so with no label selected
    no overlay is. *)
Theorem isSelected_by_id (this : CoordinateOverlay) (s : BaseState) :
  (isSelected this s = true
   <-> sd_id (CoordinateOverlay_getSelectData this s)
       ∈ selectedLabels (options s)) /\
  (selectedLabels (options s) = [] -> isSelected this s = false) /\
  sd_field (CoordinateOverlay_getSelectData this s) = field this /\
  sd_frameNumber (CoordinateOverlay_getSelectData this s) = frameNumber s.
Proof.
  unfold isSelected, CoordinateOverlay_getSelectData. cbn.
  split; [apply includes_elem_of|]. split; [|auto].
  intros ->. reflexivity.
Qed.
